(** * OpenViking MCP gateway: identity, authorization gate, configuration
      merge, error envelope and the admin tools.

    A shallow embedding of [openviking_mcp] (errors.py, auth.py, config.py,
    context.py, server.py, tools/admin.py).  Python values are a tree type
    [pyval]; [json.dumps] and [json.loads] of the Python standard library
    are modelled on it; the awaited calls into the external service and key
    manager are explicit state passing over an abstract world with a log of
    the calls made. *)

From Stdlib Require Import List String Ascii ZArith NArith Bool Lia.
From Stdlib Require DecimalFacts DecimalPos DecimalN.
Import ListNotations.

Local Open Scope string_scope.
Local Open Scope list_scope.
Set Warnings "-register-all".

(** ** Python values *)

(** The values that flow through [json.dumps] and the configuration file.
    A [str] is a [string] whose characters are the code points below 256;
    a [dict] keeps its insertion order and has [str] keys; [PObj] is an
    object of a type the encoder does not know, given by what [str()]
    returns for it.  Floats and tuples are not modelled. *)
Inductive pyval : Type :=
| PNone
| PBool (b : bool)
| PInt (z : Z)
| PStr (s : string)
| PList (l : list pyval)
| PDict (d : list (string * pyval))
| PObj (display : string).

(** [bool(v)]: what [if v:] and [v or w] test. *)
Definition truthy (v : pyval) : bool :=
  match v with
  | PNone => false
  | PBool b => b
  | PInt z => negb (Z.eqb z 0)
  | PStr s => negb (String.eqb s EmptyString)
  | PList l => match l with [] => false | _ => true end
  | PDict d => match d with [] => false | _ => true end
  | PObj _ => true
  end.

(** ** Exceptions and outcomes *)

(** [openviking_cli.exceptions.OpenVikingError]: a tagged domain error. *)
Record OpenVikingError : Type := mkOpenVikingError {
  code : string;
  message : string;
  details : pyval
}.

(** The exceptions the modelled code meets.  [BaseExceptionOnly] stands for
    the classes that derive from [BaseException] but not from [Exception]
    (KeyboardInterrupt, SystemExit, ...), which [except Exception] lets
    through. *)
Inductive exn : Type :=
| OVError (e : OpenVikingError)
| TypeError (msg : string)
| AttributeError (msg : string)
| OtherException (cls : string) (msg : string)
| BaseExceptionOnly (cls : string).

(** [isinstance(e, Exception)]. *)
Definition is_Exception (e : exn) : bool :=
  match e with
  | BaseExceptionOnly _ => false
  | _ => true
  end.

Inductive outcome (A : Type) : Type :=
| Returns (a : A)
| Raises (e : exn).
Arguments Returns {A} a.
Arguments Raises {A} e.

(** Sequencing of code that may raise. *)
Notation "x <- c1 ;; c2" :=
  (match c1 with
   | Returns x => c2
   | Raises e => Raises e
   end) (at level 61, c1 at next level, right associativity).

(** ** The json module *)

Module Json.

Definition chars : Type := list ascii.

Definition lit (s : string) : chars := list_ascii_of_string s.

Definition quote : ascii := "034"%char.
Definition backslash : ascii := "\"%char.

(** *** Encoder: [json.dumps] with its default arguments
    ([ensure_ascii=True], separators [", "] and [": "]). *)

(** One digit of ['{0:04x}'.format(n)]. *)
Definition hexdigit (n : N) : ascii :=
  match n with
  | 0 => "0" | 1 => "1" | 2 => "2" | 3 => "3" | 4 => "4" | 5 => "5"
  | 6 => "6" | 7 => "7" | 8 => "8" | 9 => "9" | 10 => "a" | 11 => "b"
  | 12 => "c" | 13 => "d" | 14 => "e" | _ => "f"
  end%N%char.

Definition hex4 (n : N) : chars :=
  [hexdigit (n / 4096 mod 16); hexdigit (n / 256 mod 16);
   hexdigit (n / 16 mod 16); hexdigit (n mod 16)]%N.

(** [ESCAPE_DCT] and the [replace] function of
    [py_encode_basestring_ascii]: the quote, the backslash and the five
    short escapes; the characters from space to tilde stay; every other
    code point becomes [\uXXXX]. *)
Definition escape_char (c : ascii) : chars :=
  if Ascii.eqb c quote then [backslash; quote]
  else if Ascii.eqb c backslash then [backslash; backslash]
  else if Ascii.eqb c "008" then [backslash; "b"%char]
  else if Ascii.eqb c "012" then [backslash; "f"%char]
  else if Ascii.eqb c "010" then [backslash; "n"%char]
  else if Ascii.eqb c "013" then [backslash; "r"%char]
  else if Ascii.eqb c "009" then [backslash; "t"%char]
  else
    let n := N_of_ascii c in
    if (32 <=? n)%N && (n <=? 126)%N then [c]
    else backslash :: "u"%char :: hex4 n.

Definition encode_basestring_ascii (s : string) : chars :=
  quote :: flat_map escape_char (lit s) ++ [quote].

Definition digit_char (k : nat) : ascii :=
  ascii_of_nat (48 + k).

(** The decimal digits of an unsigned number, most significant first. *)
Fixpoint print_uint (d : Decimal.uint) : chars :=
  match d with
  | Decimal.Nil => []
  | Decimal.D0 d => digit_char 0 :: print_uint d
  | Decimal.D1 d => digit_char 1 :: print_uint d
  | Decimal.D2 d => digit_char 2 :: print_uint d
  | Decimal.D3 d => digit_char 3 :: print_uint d
  | Decimal.D4 d => digit_char 4 :: print_uint d
  | Decimal.D5 d => digit_char 5 :: print_uint d
  | Decimal.D6 d => digit_char 6 :: print_uint d
  | Decimal.D7 d => digit_char 7 :: print_uint d
  | Decimal.D8 d => digit_char 8 :: print_uint d
  | Decimal.D9 d => digit_char 9 :: print_uint d
  end.

(** [int.__repr__]. *)
Definition int_repr (z : Z) : chars :=
  match z with
  | Z0 => [digit_char 0]
  | Zpos p => print_uint (Pos.to_uint p)
  | Zneg p => "-"%char :: print_uint (Pos.to_uint p)
  end.

(** The [default=] argument of [json.dumps] as the repository uses it:
    left out, or [str]. *)
Inductive default_hook : Type :=
| NoDefault
| DefaultStr.

Definition not_serializable : exn :=
  TypeError "Object is not JSON serializable".

(** The loops of [_iterencode_list] and [_iterencode_dict] after the first
    item: every further item is preceded by the item separator, and the
    closing bracket ends the text. *)
Section Items.
Variable encode_value : pyval -> outcome chars.

Fixpoint list_others (l : list pyval) : outcome chars :=
  match l with
  | [] => Returns (lit "]")
  | value :: l' =>
      t <- encode_value value ;;
      ts <- list_others l' ;;
      Returns (lit ", " ++ t ++ ts)
  end.

Fixpoint dict_others (l : list (string * pyval)) : outcome chars :=
  match l with
  | [] => Returns (lit "}")
  | (key, value) :: l' =>
      t <- encode_value value ;;
      ts <- dict_others l' ;;
      Returns (lit ", " ++ encode_basestring_ascii key ++ lit ": " ++ t ++ ts)
  end.
End Items.

Section Encode.
Variable default : default_hook.

(** [_iterencode]: text of a value, or the [TypeError] of the first
    object of an unknown type when no [default] is given.  With
    [default=str] the object is replaced by its display string, which is
    then encoded as a [str]. *)
Fixpoint iterencode (o : pyval) : outcome chars :=
  match o with
  | PStr s => Returns (encode_basestring_ascii s)
  | PNone => Returns (lit "null")
  | PBool true => Returns (lit "true")
  | PBool false => Returns (lit "false")
  | PInt z => Returns (int_repr z)
  | PList [] => Returns (lit "[]")
  | PList (value :: l') =>
      t <- iterencode value ;;
      ts <- list_others iterencode l' ;;
      Returns ("["%char :: t ++ ts)
  | PDict [] => Returns (lit "{}")
  | PDict ((key, value) :: l') =>
      t <- iterencode value ;;
      ts <- dict_others iterencode l' ;;
      Returns ("{"%char :: encode_basestring_ascii key ++ lit ": " ++ t ++ ts)
  | PObj display =>
      match default with
      | NoDefault => Raises not_serializable
      | DefaultStr => Returns (encode_basestring_ascii display)
      end
  end.
End Encode.

(** [json.dumps(obj)] and [json.dumps(obj, default=str)]. *)
Definition dumps (default : default_hook) (obj : pyval) : outcome string :=
  match iterencode default obj with
  | Returns t => Returns (string_of_list_ascii t)
  | Raises e => Raises e
  end.


(** *** Decoder: [json.loads].  [None] is a [JSONDecodeError], or a document
    outside the modelled values (a float, a code point above 255). *)

Definition is_ws (c : ascii) : bool :=
  Ascii.eqb c " " || Ascii.eqb c "009" || Ascii.eqb c "010" || Ascii.eqb c "013".

(** [WHITESPACE.match(s, end).end()]. *)
Fixpoint skip_ws (s : chars) : chars :=
  match s with
  | c :: r => if is_ws c then skip_ws r else s
  | [] => []
  end.

Definition unhex (c : ascii) : option N :=
  let n := N_of_ascii c in
  if (48 <=? n)%N && (n <=? 57)%N then Some (n - 48)%N
  else if (97 <=? n)%N && (n <=? 102)%N then Some (n - 87)%N
  else if (65 <=? n)%N && (n <=? 70)%N then Some (n - 55)%N
  else None.

(** [_decode_uXXXX]. *)
Definition decode_uXXXX (h1 h2 h3 h4 : ascii) : option N :=
  match unhex h1, unhex h2, unhex h3, unhex h4 with
  | Some a, Some b, Some c, Some d => Some (((a * 16 + b) * 16 + c) * 16 + d)%N
  | _, _, _, _ => None
  end.

(** The [BACKSLASH] table. *)
Definition unescape (esc : ascii) : option ascii :=
  if Ascii.eqb esc quote then Some quote
  else if Ascii.eqb esc backslash then Some backslash
  else if Ascii.eqb esc "/" then Some "/"%char
  else if Ascii.eqb esc "b" then Some "008"%char
  else if Ascii.eqb esc "f" then Some "012"%char
  else if Ascii.eqb esc "n" then Some "010"%char
  else if Ascii.eqb esc "r" then Some "013"%char
  else if Ascii.eqb esc "t" then Some "009"%char
  else None.

(** [scanstring] in strict mode, from just after the opening quote:
    the decoded string and the text after the closing quote.  [acc] holds
    the characters decoded so far, last first. *)
Fixpoint scanstring (s : chars) (acc : chars) {struct s}
  : option (string * chars) :=
  match s with
  | [] => None
  | c :: r =>
      if Ascii.eqb c quote then Some (string_of_list_ascii (rev acc), r)
      else if Ascii.eqb c backslash then
        match r with
        | [] => None
        | esc :: r1 =>
            if Ascii.eqb esc "u" then
              match r1 with
              | h1 :: h2 :: h3 :: h4 :: r2 =>
                  match decode_uXXXX h1 h2 h3 h4 with
                  | Some uni =>
                      if (uni <? 256)%N
                      then scanstring r2 (ascii_of_N uni :: acc)
                      else None
                  | None => None
                  end
              | _ => None
              end
            else
              match unescape esc with
              | Some char => scanstring r1 (char :: acc)
              | None => None
              end
        end
      else if (N_of_ascii c <? 32)%N then None
      else scanstring r (c :: acc)
  end.

Definition digit_of (c : ascii) : option (Decimal.uint -> Decimal.uint) :=
  if Ascii.eqb c "0" then Some Decimal.D0
  else if Ascii.eqb c "1" then Some Decimal.D1
  else if Ascii.eqb c "2" then Some Decimal.D2
  else if Ascii.eqb c "3" then Some Decimal.D3
  else if Ascii.eqb c "4" then Some Decimal.D4
  else if Ascii.eqb c "5" then Some Decimal.D5
  else if Ascii.eqb c "6" then Some Decimal.D6
  else if Ascii.eqb c "7" then Some Decimal.D7
  else if Ascii.eqb c "8" then Some Decimal.D8
  else if Ascii.eqb c "9" then Some Decimal.D9
  else None.

(** The longest run of decimal digits at the head of the text. *)
Fixpoint scan_digits (s : chars) : Decimal.uint * chars :=
  match s with
  | [] => (Decimal.Nil, [])
  | c :: r =>
      match digit_of c with
      | Some D => let (d, r') := scan_digits r in (D d, r')
      | None => (Decimal.Nil, s)
      end
  end.

(** The integer part of [NUMBER_RE]: a single zero, or a digit from 1 to 9
    and the digits after it. *)
Definition scan_integer (s : chars) : option (N * chars) :=
  match s with
  | [] => None
  | c :: r =>
      if Ascii.eqb c "0" then Some (0%N, r)
      else
        match scan_digits s with
        | (Decimal.Nil, _) => None
        | (d, r') => Some (N.of_uint d, r')
        end
  end.

(** A fraction or an exponent after the integer part makes the number a
    float, which is outside the modelled values. *)
Definition starts_float_part (s : chars) : bool :=
  match s with
  | c :: _ => Ascii.eqb c "." || Ascii.eqb c "e" || Ascii.eqb c "E"
  | [] => false
  end.

Definition match_number (s : chars) : option (pyval * chars) :=
  match s with
  | [] => None
  | c :: r =>
      if Ascii.eqb c "-" then
        match scan_integer r with
        | Some (n, r') =>
            if starts_float_part r' then None
            else Some (PInt (- Z.of_N n), r')
        | None => None
        end
      else
        match scan_integer s with
        | Some (n, r') =>
            if starts_float_part r' then None
            else Some (PInt (Z.of_N n), r')
        | None => None
        end
  end.

(** [s[idx:idx+len(p)] == p], and the text after it. *)
Fixpoint strip_prefix (p s : chars) : option chars :=
  match p, s with
  | [], _ => Some s
  | a :: p', b :: s' => if Ascii.eqb a b then strip_prefix p' s' else None
  | _ :: _, [] => None
  end.

(** [d[key] = value] on an insertion-ordered dict. *)
Fixpoint dict_set (d : list (string * pyval)) (key : string) (value : pyval)
  : list (string * pyval) :=
  match d with
  | [] => [(key, value)]
  | (k, v) :: d' =>
      if String.eqb k key then (k, value) :: d'
      else (k, v) :: dict_set d' key value
  end.

(** [dict(pairs)]. *)
Definition dict_of_pairs (pairs : list (string * pyval))
  : list (string * pyval) :=
  fold_left (fun d kv => dict_set d (fst kv) (snd kv)) pairs [].

(** [scan_once], [JSONArray] and [JSONObject].  The recursion of the Python
    decoder follows the nesting of the text; here it is bounded by [fuel],
    which [loads] sets from the length of the text. *)
Fixpoint scan_once (fuel : nat) (s : chars) {struct fuel}
  : option (pyval * chars) :=
  match fuel with
  | O => None
  | S fuel' =>
      match s with
      | [] => None
      | nextchar :: r =>
          if Ascii.eqb nextchar quote then
            match scanstring r [] with
            | Some (str, r') => Some (PStr str, r')
            | None => None
            end
          else if Ascii.eqb nextchar "{" then
            match skip_ws r with
            | c :: r' =>
                if Ascii.eqb c "}" then Some (PDict [], r')
                else if Ascii.eqb c quote then
                  match object_loop fuel' r' with
                  | Some (pairs, r'') => Some (PDict (dict_of_pairs pairs), r'')
                  | None => None
                  end
                else None
            | [] => None
            end
          else if Ascii.eqb nextchar "[" then
            match skip_ws r with
            | c :: r' =>
                if Ascii.eqb c "]" then Some (PList [], r')
                else
                  match array_loop fuel' (c :: r') with
                  | Some (values, r'') => Some (PList values, r'')
                  | None => None
                  end
            | [] => None
            end
          else
            match strip_prefix (lit "null") s with
            | Some r' => Some (PNone, r')
            | None =>
                match strip_prefix (lit "true") s with
                | Some r' => Some (PBool true, r')
                | None =>
                    match strip_prefix (lit "false") s with
                    | Some r' => Some (PBool false, r')
                    | None => match_number s
                    end
                end
            end
      end
  end

(** The [while True] loop of [JSONArray], from the start of a value. *)
with array_loop (fuel : nat) (s : chars) {struct fuel}
  : option (list pyval * chars) :=
  match fuel with
  | O => None
  | S fuel' =>
      match scan_once fuel' s with
      | None => None
      | Some (value, r) =>
          match skip_ws r with
          | c :: r' =>
              if Ascii.eqb c "]" then Some ([value], r')
              else if Ascii.eqb c "," then
                match array_loop fuel' (skip_ws r') with
                | Some (values, r'') => Some (value :: values, r'')
                | None => None
                end
              else None
          | [] => None
          end
      end
  end

(** The [while True] loop of [JSONObject], from just after the opening
    quote of a key. *)
with object_loop (fuel : nat) (s : chars) {struct fuel}
  : option (list (string * pyval) * chars) :=
  match fuel with
  | O => None
  | S fuel' =>
      match scanstring s [] with
      | None => None
      | Some (key, r) =>
          match skip_ws r with
          | c :: r1 =>
              if Ascii.eqb c ":" then
                match scan_once fuel' (skip_ws r1) with
                | None => None
                | Some (value, r2) =>
                    match skip_ws r2 with
                    | c' :: r3 =>
                        if Ascii.eqb c' "}" then Some ([(key, value)], r3)
                        else if Ascii.eqb c' "," then
                          match skip_ws r3 with
                          | q :: r4 =>
                              if Ascii.eqb q quote then
                                match object_loop fuel' r4 with
                                | Some (pairs, r5) =>
                                    Some ((key, value) :: pairs, r5)
                                | None => None
                                end
                              else None
                          | [] => None
                          end
                        else None
                    | [] => None
                    end
                end
              else None
          | [] => None
          end
      end
  end.

(** [json.loads(text)]: one value between optional white space, and nothing
    after it. *)
Definition loads (text : string) : option pyval :=
  let s := lit text in
  match scan_once (S (List.length s)) (skip_ws s) with
  | Some (obj, r) =>
      match skip_ws r with
      | [] => Some obj
      | _ :: _ => None
      end
  | None => None
  end.

End Json.

(** ** errors.py *)

(** [format_error]: the envelope of a domain error, with [default=str]. *)
Definition format_error (e : OpenVikingError) : outcome string :=
  Json.dumps Json.DefaultStr
    (PDict [("error", PBool true); ("code", PStr (code e));
            ("message", PStr (message e)); ("details", details e)]%string).

(** [permission_denied]: the denial payload.  Every call in the package
    passes the message, so its default value is left out. *)
Definition permission_denied (message : string) : outcome string :=
  Json.dumps Json.NoDefault
    (PDict [("error", PBool true); ("code", PStr "PERMISSION_DENIED");
            ("message", PStr message)]%string).

(** ** Identity types of [openviking.server.identity] and
    [openviking_cli.session.user_id] *)

(** Modelled from the spec: the [Role] enumeration, whose declaration is
    outside the sources at hand: an enumerated value in ROOT, ADMIN, USER. *)
Inductive Role : Type := ROOT | ADMIN | USER.

Definition Role_eqb (a b : Role) : bool :=
  match a, b with
  | ROOT, ROOT | ADMIN, ADMIN | USER, USER => true
  | _, _ => false
  end.

(** Modelled from the spec: [ResolvedIdentity], the output of credential
    resolution: account_id, user_id, agent_id, each optional, and a Role. *)
Module ResolvedIdentity.
Record t : Type := make {
  role : Role;
  account_id : option string;
  user_id : option string;
  agent_id : option string
}.
End ResolvedIdentity.

(** Modelled from the spec: [UserIdentifier], the triple (account, user,
    agent) built from three strings. *)
Module UserIdentifier.
Record t : Type := make {
  account : string;
  user : string;
  agent : string
}.
End UserIdentifier.

(** Modelled from the spec: [RequestContext], the (UserIdentifier, Role)
    pair built for a call. *)
Module RequestContext.
Record t : Type := make {
  user : UserIdentifier.t;
  role : Role
}.
End RequestContext.

(** ** config.py *)

(** The dataclass does not check its fields: each holds whatever value the
    configuration document gave. *)
Record MCPServerConfig : Type := mkMCPServerConfig {
  host : pyval;
  port : pyval;
  root_api_key : pyval;
  cors_origins : pyval
}.

(** [MCPServerConfig()]: the field defaults. *)
Definition MCPServerConfig_default : MCPServerConfig :=
  {| host := PStr "0.0.0.0";
     port := PInt 2033;
     root_api_key := PNone;
     cors_origins := PList [PStr "*"] |}.

(** The value stored under a key of a dict. *)
Fixpoint lookup (key : string) (d : list (string * pyval)) : option pyval :=
  match d with
  | [] => None
  | (k, v) :: d' => if String.eqb k key then Some v else lookup key d'
  end.

Definition type_name (v : pyval) : string :=
  match v with
  | PNone => "NoneType"
  | PBool _ => "bool"
  | PInt _ => "int"
  | PStr _ => "str"
  | PList _ => "list"
  | PDict _ => "dict"
  | PObj _ => "object"
  end.

(** The attribute [o.get]: the bound method of a dict, an [AttributeError]
    for a value of any other type. *)
Definition getattr_get (o : pyval) : outcome (string -> pyval -> pyval) :=
  match o with
  | PDict d =>
      Returns (fun key default =>
                 match lookup key d with
                 | Some v => v
                 | None => default
                 end)
  | _ => Raises (AttributeError
                   (String.append "'"
                      (String.append (type_name o)
                         "' object has no attribute 'get'")))
  end.

(** [d.get(key, default)]. *)
Definition dict_get (o : pyval) (key : string) (default : pyval)
  : outcome pyval :=
  get <- getattr_get o ;; Returns (get key default).

(** [from_ov_conf] after [json.load].  A call [a.get(k, b.get(k, d))]
    looks up the attribute [a.get] first and then evaluates the inner
    call. *)
Definition merge_sections (data : pyval) : outcome MCPServerConfig :=
  server <- dict_get data "server" (PDict []) ;;
  mcp <- dict_get data "mcp_server" (PDict []) ;;
  host <- (get <- getattr_get mcp ;;
           inner <- dict_get server "host" (PStr "0.0.0.0") ;;
           Returns (get "host"%string inner)) ;;
  port <- dict_get mcp "port" (PInt 2033) ;;
  root_api_key <- (get <- getattr_get mcp ;;
                   inner <- dict_get server "root_api_key" PNone ;;
                   Returns (get "root_api_key"%string inner)) ;;
  cors_origins <- (get <- getattr_get mcp ;;
                   inner <- dict_get server "cors_origins" (PList [PStr "*"]) ;;
                   Returns (get "cors_origins"%string inner)) ;;
  Returns {| host := host;
             port := port;
             root_api_key := root_api_key;
             cors_origins := cors_origins |}.

(** [MCPServerConfig.from_ov_conf(config_path)].  [files] is the file
    system as this function sees it: [files path] is [None] when
    [os.path.exists(path)] is false, else the document that [json.load]
    returns for the file at [path]. *)
Definition from_ov_conf (files : string -> option pyval)
    (config_path : string) : outcome MCPServerConfig :=
  match files config_path with
  | None => Returns MCPServerConfig_default
  | Some data => merge_sections data
  end.

(** ** The external collaborators and the calls made to them *)

(** [server.AppContext].  The service and the key manager are objects of
    other packages; the context holds a handle to each. *)
Module AppContext.
Record t (Service APIKeyManager : Type) : Type := make {
  service : Service;
  api_key_manager : option APIKeyManager
}.
Arguments make {Service APIKeyManager} _ _.
Arguments service {Service APIKeyManager} _.
Arguments api_key_manager {Service APIKeyManager} _.
End AppContext.

(** The session of the transport layer, with the dynamic attribute that the
    auth step sets.  [None] is what [getattr(session, "_ov_identity", None)]
    gives when the attribute is missing, or set to [None]. *)
Record Session : Type := mkSession {
  _ov_identity : option ResolvedIdentity.t
}.

(** The tool [Context]; [ctx.request_context.session] and
    [ctx.request_context.lifespan_context] are its two fields here. *)
Record Context (Service APIKeyManager : Type) : Type := mkContext {
  session : Session;
  lifespan_context : AppContext.t Service APIKeyManager
}.
Arguments mkContext {Service APIKeyManager} _ _.
Arguments session {Service APIKeyManager} _.
Arguments lifespan_context {Service APIKeyManager} _.

(** The calls into the service and the key manager, as they appear in the
    log of a run. *)
Inductive call : Type :=
| OpenVikingService_new
| service_initialize
| service_close
| service_initialize_account_directories (request_ctx : RequestContext.t)
| service_initialize_user_directories (request_ctx : RequestContext.t)
| APIKeyManager_new (root_key agfs_url : pyval)
| api_key_manager_load
| api_key_manager_resolve (token : string)
| api_key_manager_create_account (account_id admin_user_id : string)
| api_key_manager_get_accounts
| api_key_manager_delete_account (account_id : string)
| api_key_manager_register_user (account_id user_id role : string)
| api_key_manager_get_users (account_id : string)
| api_key_manager_remove_user (account_id user_id : string)
| api_key_manager_set_role (account_id user_id role : string).

(** ** Code that calls out: state passing over the outside world *)

Section Run.

(** The state of everything outside this package: the service, its
    store, the key store. *)
Variable world : Type.

(** What a call into an external object does: it returns or raises, and
    leaves a new world. *)
Definition effect (A : Type) : Type := world -> outcome A * world.

(** A run: the world and the log of external calls, in order. *)
Record run_state : Type := mkRun {
  ext : world;
  calls : list call
}.

(** Code of this package: it may call out, return or raise. *)
Definition M (A : Type) : Type := run_state -> outcome A * run_state.

Definition ret {A} (a : A) : M A := fun st => (Returns a, st).

Definition bind {A B} (m : M A) (k : A -> M B) : M B :=
  fun st =>
    match m st with
    | (Returns a, st') => k a st'
    | (Raises e, st') => (Raises e, st')
    end.

(** Pure code that may raise. *)
Definition lift {A} (o : outcome A) : M A := fun st => (o, st).

(** A call into an external object, entered in the log. *)
Definition invoke {A} (c : call) (f : effect A) : M A :=
  fun st =>
    let (r, w) := f (ext st) in
    (r, {| ext := w; calls := calls st ++ [c] |}).

(** [try: body except OpenVikingError as e: return handler(e)]. *)
Definition try_except_OpenVikingError {A}
    (body : M A) (handler : OpenVikingError -> M A) : M A :=
  fun st =>
    match body st with
    | (Raises (OVError e), st') => handler e st'
    | r => r
    end.

(** [try: body except Exception: handler]. *)
Definition try_except_Exception {A} (body : M A) (handler : M A) : M A :=
  fun st =>
    match body st with
    | (Raises e, st') =>
        if is_Exception e then handler st' else (Raises e, st')
    | r => r
    end.

(** [try: body finally: cleanup]. *)
Definition try_finally {A} (body : M A) (cleanup : M unit) : M A :=
  fun st =>
    match body st with
    | (r, st') =>
        match cleanup st' with
        | (Returns _, st'') => (r, st'')
        | (Raises e, st'') => (Raises e, st'')
        end
    end.

End Run.

Arguments mkRun {world} _ _.
Arguments ext {world} _.
Arguments calls {world} _.
Arguments ret {world A} _ _.
Arguments bind {world A B} _ _ _.
Arguments lift {world A} _ _.
Arguments invoke {world A} _ _ _.
Arguments try_except_OpenVikingError {world A} _ _ _.
Arguments try_except_Exception {world A} _ _ _.
Arguments try_finally {world A} _ _ _.

Notation "x <~ c1 ;; c2" := (bind c1 (fun x => c2))
  (at level 61, c1 at next level, right associativity).

(** [if err := guard: return err], and the code after it. *)
Definition return_if_truthy {world} (err : option string)
    (otherwise : M world string) : M world string :=
  match err with
  | Some text => if String.eqb text EmptyString then otherwise else ret text
  | None => otherwise
  end.

(** [x or "default"] on an optional string. *)
Definition or_default (x : option string) : string :=
  match x with
  | Some text => if String.eqb text EmptyString then "default"%string else text
  | None => "default"%string
  end.

Section Gateway.

Variable world : Type.
Variable Service : Type.
Variable APIKeyManager : Type.

(** The methods this package calls on [OpenVikingService]. *)
Record ServiceAPI : Type := {
  svc_new : effect world Service;
  svc_initialize : Service -> effect world unit;
  svc_close : Service -> effect world unit;
  svc_agfs_url : Service -> pyval;
  svc_initialize_account_directories :
    Service -> RequestContext.t -> effect world unit;
  svc_initialize_user_directories :
    Service -> RequestContext.t -> effect world unit
}.

(** The methods this package calls on [APIKeyManager]. *)
Record APIKeyManagerAPI : Type := {
  km_new : pyval -> pyval -> effect world APIKeyManager;
  km_load : APIKeyManager -> effect world unit;
  km_resolve :
    APIKeyManager -> string -> effect world (option ResolvedIdentity.t);
  km_create_account : APIKeyManager -> string -> string -> effect world pyval;
  km_get_accounts : APIKeyManager -> effect world pyval;
  km_delete_account : APIKeyManager -> string -> effect world unit;
  km_register_user :
    APIKeyManager -> string -> string -> string -> effect world pyval;
  km_get_users : APIKeyManager -> string -> effect world pyval;
  km_remove_user : APIKeyManager -> string -> string -> effect world unit;
  km_set_role :
    APIKeyManager -> string -> string -> string -> effect world unit
}.

Variable svc : ServiceAPI.
Variable km : APIKeyManagerAPI.

Let AppCtx : Type := AppContext.t Service APIKeyManager.
Let Ctx : Type := Context Service APIKeyManager.

(** *** auth.py *)

Definition resolve_identity (api_key_manager : option APIKeyManager)
    (token : string) : M world (option ResolvedIdentity.t) :=
  match api_key_manager with
  | None => ret None
  | Some manager =>
      try_except_Exception
        (invoke (api_key_manager_resolve token) (km_resolve km manager token))
        (ret None)
  end.

(** *** context.py *)

Definition get_app (ctx : Ctx) : AppCtx := lifespan_context ctx.

Definition get_request_context (ctx : Ctx) : RequestContext.t :=
  let app := get_app ctx in
  let session := session ctx in
  let identity := _ov_identity session in
  match identity with
  | Some identity =>
      RequestContext.make
        (UserIdentifier.make
           (or_default (ResolvedIdentity.account_id identity))
           (or_default (ResolvedIdentity.user_id identity))
           (or_default (ResolvedIdentity.agent_id identity)))
        (ResolvedIdentity.role identity)
  | None =>
      RequestContext.make
        (UserIdentifier.make "default" "default" "default")
        ROOT
  end.

(** *** server.py *)

(** [app_lifespan]: [_server_config] is the module-level reference set by
    [create_mcp_server]; [serve] is what runs while the context manager
    has yielded the [AppContext].  The calls to the logger are left out. *)
Definition app_lifespan {A} (_server_config : option MCPServerConfig)
    (serve : AppCtx -> M world A) : M world A :=
  let config :=
    match _server_config with
    | Some c => c
    | None => MCPServerConfig_default
    end in
  service <~ invoke OpenVikingService_new (svc_new svc) ;;
  _ <~ invoke service_initialize (svc_initialize svc service) ;;
  api_key_manager <~
    (if truthy (root_api_key config) then
       manager <~
         invoke (APIKeyManager_new (root_api_key config)
                   (svc_agfs_url svc service))
                (km_new km (root_api_key config) (svc_agfs_url svc service)) ;;
       _ <~ invoke api_key_manager_load (km_load km manager) ;;
       ret (Some manager)
     else ret None) ;;
  try_finally
    (serve (AppContext.make service api_key_manager))
    (invoke service_close (svc_close svc service)).

(** *** tools/admin.py *)

Definition _require_root (ctx : Ctx) : outcome (option string) :=
  let request_ctx := get_request_context ctx in
  if negb (Role_eqb (RequestContext.role request_ctx) ROOT) then
    err <- permission_denied "ROOT role required" ;; Returns (Some err)
  else Returns None.

Definition _require_admin_or_root (ctx : Ctx) (account_id : string)
  : outcome (option string) :=
  let request_ctx := get_request_context ctx in
  if Role_eqb (RequestContext.role request_ctx) ROOT then Returns None
  else if Role_eqb (RequestContext.role request_ctx) ADMIN
          && String.eqb
               (UserIdentifier.account (RequestContext.user request_ctx))
               account_id
  then Returns None
  else
    err <- permission_denied "ROOT or account ADMIN role required" ;;
    Returns (Some err).

Definition dev_mode_denial : outcome string :=
  permission_denied "Auth not configured (dev mode)".

Definition admin_create_account (account_id admin_user_id : string)
    (ctx : Ctx) : M world string :=
  try_except_OpenVikingError
    (err <~ lift (_require_root ctx) ;;
     return_if_truthy err
       (let app := get_app ctx in
        match AppContext.api_key_manager app with
        | None => lift dev_mode_denial
        | Some api_key_manager =>
            let request_ctx := get_request_context ctx in
            user_key <~
              invoke (api_key_manager_create_account account_id admin_user_id)
                (km_create_account km api_key_manager
                   account_id admin_user_id) ;;
            _ <~
              invoke (service_initialize_account_directories request_ctx)
                (svc_initialize_account_directories svc
                   (AppContext.service app) request_ctx) ;;
            lift (Json.dumps Json.NoDefault
                    (PDict [("account_id", PStr account_id);
                            ("admin_user_id", PStr admin_user_id);
                            ("user_key", user_key)]%string))
        end))
    (fun e => lift (format_error e)).

Definition admin_list_accounts (ctx : Ctx) : M world string :=
  try_except_OpenVikingError
    (err <~ lift (_require_root ctx) ;;
     return_if_truthy err
       (let app := get_app ctx in
        match AppContext.api_key_manager app with
        | None => lift dev_mode_denial
        | Some api_key_manager =>
            result <~
              invoke api_key_manager_get_accounts
                (km_get_accounts km api_key_manager) ;;
            lift (Json.dumps Json.DefaultStr result)
        end))
    (fun e => lift (format_error e)).

Definition admin_delete_account (account_id : string) (ctx : Ctx)
  : M world string :=
  try_except_OpenVikingError
    (err <~ lift (_require_root ctx) ;;
     return_if_truthy err
       (let app := get_app ctx in
        match AppContext.api_key_manager app with
        | None => lift dev_mode_denial
        | Some api_key_manager =>
            _ <~
              invoke (api_key_manager_delete_account account_id)
                (km_delete_account km api_key_manager account_id) ;;
            lift (Json.dumps Json.NoDefault
                    (PDict [("account_id", PStr account_id);
                            ("deleted", PBool true)]%string))
        end))
    (fun e => lift (format_error e)).

Definition admin_register_user (account_id user_id role : string)
    (ctx : Ctx) : M world string :=
  try_except_OpenVikingError
    (err <~ lift (_require_admin_or_root ctx account_id) ;;
     return_if_truthy err
       (let app := get_app ctx in
        match AppContext.api_key_manager app with
        | None => lift dev_mode_denial
        | Some api_key_manager =>
            let request_ctx := get_request_context ctx in
            user_key <~
              invoke (api_key_manager_register_user account_id user_id role)
                (km_register_user km api_key_manager
                   account_id user_id role) ;;
            _ <~
              invoke (service_initialize_user_directories request_ctx)
                (svc_initialize_user_directories svc
                   (AppContext.service app) request_ctx) ;;
            lift (Json.dumps Json.NoDefault
                    (PDict [("account_id", PStr account_id);
                            ("user_id", PStr user_id);
                            ("user_key", user_key)]%string))
        end))
    (fun e => lift (format_error e)).

Definition admin_list_users (account_id : string) (ctx : Ctx)
  : M world string :=
  try_except_OpenVikingError
    (err <~ lift (_require_admin_or_root ctx account_id) ;;
     return_if_truthy err
       (let app := get_app ctx in
        match AppContext.api_key_manager app with
        | None => lift dev_mode_denial
        | Some api_key_manager =>
            result <~
              invoke (api_key_manager_get_users account_id)
                (km_get_users km api_key_manager account_id) ;;
            lift (Json.dumps Json.DefaultStr result)
        end))
    (fun e => lift (format_error e)).

Definition admin_remove_user (account_id user_id : string) (ctx : Ctx)
  : M world string :=
  try_except_OpenVikingError
    (err <~ lift (_require_admin_or_root ctx account_id) ;;
     return_if_truthy err
       (let app := get_app ctx in
        match AppContext.api_key_manager app with
        | None => lift dev_mode_denial
        | Some api_key_manager =>
            _ <~
              invoke (api_key_manager_remove_user account_id user_id)
                (km_remove_user km api_key_manager account_id user_id) ;;
            lift (Json.dumps Json.NoDefault
                    (PDict [("account_id", PStr account_id);
                            ("user_id", PStr user_id);
                            ("deleted", PBool true)]%string))
        end))
    (fun e => lift (format_error e)).

Definition admin_set_role (account_id user_id role : string) (ctx : Ctx)
  : M world string :=
  try_except_OpenVikingError
    (err <~ lift (_require_root ctx) ;;
     return_if_truthy err
       (let app := get_app ctx in
        match AppContext.api_key_manager app with
        | None => lift dev_mode_denial
        | Some api_key_manager =>
            _ <~
              invoke (api_key_manager_set_role account_id user_id role)
                (km_set_role km api_key_manager account_id user_id role) ;;
            lift (Json.dumps Json.NoDefault
                    (PDict [("account_id", PStr account_id);
                            ("user_id", PStr user_id);
                            ("role", PStr role)]%string))
        end))
    (fun e => lift (format_error e)).

(** The tools registered by [register_admin_tools], each with its
    arguments. *)
Inductive admin_tool : Type :=
| Admin_create_account (account_id admin_user_id : string)
| Admin_list_accounts
| Admin_delete_account (account_id : string)
| Admin_register_user (account_id user_id role : string)
| Admin_list_users (account_id : string)
| Admin_remove_user (account_id user_id : string)
| Admin_set_role (account_id user_id role : string).

(** A tool invocation. *)
Definition call_tool (tool : admin_tool) (ctx : Ctx) : M world string :=
  match tool with
  | Admin_create_account account_id admin_user_id =>
      admin_create_account account_id admin_user_id ctx
  | Admin_list_accounts => admin_list_accounts ctx
  | Admin_delete_account account_id => admin_delete_account account_id ctx
  | Admin_register_user account_id user_id role =>
      admin_register_user account_id user_id role ctx
  | Admin_list_users account_id => admin_list_users account_id ctx
  | Admin_remove_user account_id user_id =>
      admin_remove_user account_id user_id ctx
  | Admin_set_role account_id user_id role =>
      admin_set_role account_id user_id role ctx
  end.

(** The guard on the first line of each tool. *)
Definition role_gate (tool : admin_tool) (ctx : Ctx)
  : outcome (option string) :=
  match tool with
  | Admin_create_account _ _ | Admin_list_accounts
  | Admin_delete_account _ | Admin_set_role _ _ _ => _require_root ctx
  | Admin_register_user account_id _ _ | Admin_list_users account_id
  | Admin_remove_user account_id _ => _require_admin_or_root ctx account_id
  end.

End Gateway.

Arguments svc_new {world Service} _ _.
Arguments svc_initialize {world Service} _ _ _.
Arguments svc_close {world Service} _ _ _.
Arguments svc_agfs_url {world Service} _ _.
Arguments svc_initialize_account_directories {world Service} _ _ _ _.
Arguments svc_initialize_user_directories {world Service} _ _ _ _.
Arguments km_new {world APIKeyManager} _ _ _ _.
Arguments km_load {world APIKeyManager} _ _ _.
Arguments km_resolve {world APIKeyManager} _ _ _ _.
Arguments km_create_account {world APIKeyManager} _ _ _ _ _.
Arguments km_get_accounts {world APIKeyManager} _ _ _.
Arguments km_delete_account {world APIKeyManager} _ _ _ _.
Arguments km_register_user {world APIKeyManager} _ _ _ _ _ _.
Arguments km_get_users {world APIKeyManager} _ _ _ _.
Arguments km_remove_user {world APIKeyManager} _ _ _ _ _.
Arguments km_set_role {world APIKeyManager} _ _ _ _ _ _.
Arguments resolve_identity {world APIKeyManager} km api_key_manager token _.
Arguments get_app {Service APIKeyManager} ctx.
Arguments get_request_context {Service APIKeyManager} ctx.
Arguments app_lifespan {world Service APIKeyManager} svc km {A} _ _ _.
Arguments _require_root {Service APIKeyManager} ctx.
Arguments _require_admin_or_root {Service APIKeyManager} ctx account_id.
Arguments admin_create_account {world Service APIKeyManager} svc km _ _ _ _.
Arguments admin_list_accounts {world Service APIKeyManager} km _ _.
Arguments admin_delete_account {world Service APIKeyManager} km _ _ _.
Arguments admin_register_user {world Service APIKeyManager} svc km _ _ _ _ _.
Arguments admin_list_users {world Service APIKeyManager} km _ _ _.
Arguments admin_remove_user {world Service APIKeyManager} km _ _ _ _.
Arguments admin_set_role {world Service APIKeyManager} km _ _ _ _ _.
Arguments call_tool {world Service APIKeyManager} svc km tool ctx _.
Arguments role_gate {Service APIKeyManager} tool ctx.

(** ** What the specification says, for comparison with the code *)

(** What a reader of [json.loads] output sees for a value: an object of an
    unknown type shows as its display string. *)
Fixpoint rendered (v : pyval) : pyval :=
  match v with
  | PList l => PList (map rendered l)
  | PDict d => PDict (map (fun kv => (fst kv, rendered (snd kv))) d)
  | PObj display => PStr display
  | _ => v
  end.

Fixpoint distinct (keys : list string) : bool :=
  match keys with
  | [] => true
  | k :: keys' => negb (existsb (String.eqb k) keys') && distinct keys'
  end.

(** The keys of every dict inside a value are pairwise different, as they
    are in any Python dict. *)
Fixpoint keys_unique (v : pyval) : bool :=
  match v with
  | PList l => forallb keys_unique l
  | PDict d =>
      distinct (map fst d) && forallb (fun kv => keys_unique (snd kv)) d
  | _ => true
  end.

(** The member [section.key] of the configuration document as the merge
    rule of the specification reads it: nothing when the section or the key
    is missing. *)
Definition member (data : pyval) (section key : string) : option pyval :=
  match data with
  | PDict d =>
      match lookup section d with
      | Some (PDict s) => lookup key s
      | _ => None
      end
  | _ => None
  end.

(** [a ?? b] of the specification: [b] when [a] is missing or null. *)
Definition coalesce (a : option pyval) (b : pyval) : pyval :=
  match a with
  | None | Some PNone => b
  | Some v => v
  end.

(** The merge rule in the words of the specification. *)
Definition spec_merge (data : pyval) : MCPServerConfig :=
  {| host :=
       coalesce (member data "mcp_server" "host")
         (coalesce (member data "server" "host") (PStr "0.0.0.0"));
     port := coalesce (member data "mcp_server" "port") (PInt 2033);
     root_api_key :=
       coalesce (member data "mcp_server" "root_api_key")
         (coalesce (member data "server" "root_api_key") PNone);
     cors_origins :=
       coalesce (member data "mcp_server" "cors_origins")
         (coalesce (member data "server" "cors_origins")
            (PList [PStr "*"])) |}.

(** The same rule with "the key is present" in place of "is not null". *)
Definition present_or (a : option pyval) (b : pyval) : pyval :=
  match a with
  | Some v => v
  | None => b
  end.

Definition key_merge (data : pyval) : MCPServerConfig :=
  {| host :=
       present_or (member data "mcp_server" "host")
         (present_or (member data "server" "host") (PStr "0.0.0.0"));
     port := present_or (member data "mcp_server" "port") (PInt 2033);
     root_api_key :=
       present_or (member data "mcp_server" "root_api_key")
         (present_or (member data "server" "root_api_key") PNone);
     cors_origins :=
       present_or (member data "mcp_server" "cors_origins")
         (present_or (member data "server" "cors_origins")
            (PList [PStr "*"])) |}.

(** A configuration document: a JSON object whose [server] and
    [mcp_server] sections, when present, are objects. *)
Definition is_section (v : option pyval) : bool :=
  match v with
  | None | Some (PDict _) => true
  | Some _ => false
  end.

Definition config_document (data : pyval) : bool :=
  match data with
  | PDict d => is_section (lookup "server" d) && is_section (lookup "mcp_server" d)
  | _ => false
  end.

(** No member that the merge rule reads is an explicit null. *)
Definition not_null (v : option pyval) : bool :=
  match v with
  | Some PNone => false
  | _ => true
  end.

Definition members_read : list (string * string) :=
  [("mcp_server", "host"); ("server", "host"); ("mcp_server", "port");
   ("mcp_server", "root_api_key"); ("server", "root_api_key");
   ("mcp_server", "cors_origins"); ("server", "cors_origins")].

Definition no_null_member (data : pyval) : bool :=
  forallb (fun sk => not_null (member data (fst sk) (snd sk))) members_read.

(** ** Auxiliary notions for the proofs about the json module *)

Module JsonAux.
Import Json.

Definition is_digit (c : ascii) : bool :=
  match digit_of c with Some _ => true | None => false end.

(** The text after a number does not continue it. *)
Definition delimited (rest : chars) : bool :=
  match rest with
  | [] => true
  | c :: _ => negb (is_digit c) && negb (starts_float_part rest)
  end.

(** A positive number prints with a leading digit from 1 to 9. *)
Definition leading_nonzero (d : Decimal.uint) : bool :=
  match d with
  | Decimal.Nil | Decimal.D0 _ => false
  | _ => true
  end.

Definition value_start (c : ascii) : bool :=
  existsb (Ascii.eqb c) (quote :: lit "ntf-0123456789[{").

Definition number_start (c : ascii) : bool :=
  existsb (Ascii.eqb c) (lit "-0123456789").

Definition decodes (default : default_hook) (v : pyval) : Prop :=
  forall t, iterencode default v = Returns t -> keys_unique v = true ->
  forall fuel rest, List.length t < fuel -> delimited rest = true ->
    scan_once fuel (t ++ rest) = Some (rendered v, rest).

End JsonAux.

Section PyvalInduction.
Variable P : pyval -> Prop.
Hypothesis HNone : P PNone.
Hypothesis HBool : forall b, P (PBool b).
Hypothesis HInt : forall z, P (PInt z).
Hypothesis HStr : forall s, P (PStr s).
Hypothesis HList : forall l, Forall P l -> P (PList l).
Hypothesis HDict : forall d, Forall (fun kv => P (snd kv)) d -> P (PDict d).
Hypothesis HObj : forall s, P (PObj s).

Fixpoint pyval_nested_ind (v : pyval) : P v :=
  match v with
  | PNone => HNone
  | PBool b => HBool b
  | PInt z => HInt z
  | PStr s => HStr s
  | PList l =>
      HList l
        ((fix all (l : list pyval) : Forall P l :=
            match l with
            | [] => Forall_nil P
            | x :: l' => Forall_cons x (pyval_nested_ind x) (all l')
            end) l)
  | PDict d =>
      HDict d
        ((fix all (d : list (string * pyval))
            : Forall (fun kv => P (snd kv)) d :=
            match d with
            | [] => Forall_nil _
            | kv :: d' =>
                Forall_cons kv (pyval_nested_ind (snd kv)) (all d')
            end) d)
  | PObj s => HObj s
  end.
End PyvalInduction.


(** ** Notions used to state the claims *)

(** The object a denial payload parses back to. *)
Definition denial_object (msg : string) : pyval :=
  PDict [("error", PBool true); ("code", PStr "PERMISSION_DENIED");
         ("message", PStr msg)]%string.

(** [text] is the denial payload with the given message: what
    [permission_denied] returns for it, a JSON text of the object above. *)
Definition is_denial (text msg : string) : Prop :=
  permission_denied msg = Returns text
  /\ Json.loads text = Some (denial_object msg).

(** The object the envelope of a domain error parses back to. *)
Definition error_object (e : OpenVikingError) : pyval :=
  PDict [("error", PBool true); ("code", PStr (code e));
         ("message", PStr (message e));
         ("details", rendered (details e))]%string.

(** The configuration [app_lifespan] works with. *)
Definition effective_config (_server_config : option MCPServerConfig)
  : MCPServerConfig :=
  match _server_config with
  | Some c => c
  | None => MCPServerConfig_default
  end.

(** In the spec's words, a root credential is configured when the merged
    configuration has a [root_api_key]: a value other than the null that
    the merge rule ends in. *)
Definition root_credential_configured (config : MCPServerConfig) : Prop :=
  root_api_key config <> PNone.

(** The document [{"server": {"root_api_key": ""}}], with the empty string
    as root key. *)
Definition empty_key_document : pyval :=
  PDict [("server", PDict [("root_api_key", PStr EmptyString)])]%string.

(** The configuration read from that document. *)
Definition empty_key_config : MCPServerConfig :=
  mkMCPServerConfig (PStr "0.0.0.0") (PInt 2033) (PStr EmptyString)
    (PList [PStr "*"]).

(** The document [{"server": {"host": "A"}, "mcp_server": {"host": null}}]. *)
Definition null_host_document : pyval :=
  PDict [("server", PDict [("host", PStr "A")]);
         ("mcp_server", PDict [("host", PNone)])]%string.

(** The document
    [{"server": {"host": "A", "port": 1}, "mcp_server": {"host": "B", "port": 9000}}]. *)
Definition example_document : pyval :=
  PDict [("server", PDict [("host", PStr "A"); ("port", PInt 1)]);
         ("mcp_server", PDict [("host", PStr "B"); ("port", PInt 9000)])]%string.

(** The document [{"server": {"host": "A"}, "mcp_server": {}}]. *)
Definition server_only_document : pyval :=
  PDict [("server", PDict [("host", PStr "A")]);
         ("mcp_server", PDict [])]%string.

(** A file system with one file, at the given path. *)
Definition one_file (path : string) (data : pyval) : string -> option pyval :=
  fun p => if String.eqb p path then Some data else None.

(** ** A small instance of the outside world, to run the code on *)

Module Demo.

(** The world is the list of accounts of the key store. *)
Definition world : Type := list string.

Definition svc : ServiceAPI world unit :=
  {| svc_new := fun w => (Returns tt, w);
     svc_initialize := fun _ w => (Returns tt, w);
     svc_close := fun _ w => (Returns tt, w);
     svc_agfs_url := fun _ => PStr "http://localhost:1833";
     svc_initialize_account_directories := fun _ _ w => (Returns tt, w);
     svc_initialize_user_directories := fun _ _ w => (Returns tt, w) |}.

(** A key store that knows no token: every lookup raises. *)
Definition km : APIKeyManagerAPI world unit :=
  {| km_new := fun _ _ w => (Returns tt, w);
     km_load := fun _ w => (Returns tt, w);
     km_resolve := fun _ _ w =>
       (Raises (OtherException "UnauthenticatedError" "Invalid API Key"), w);
     km_create_account := fun _ account_id _ w =>
       (Returns (PStr "key"), account_id :: w);
     km_get_accounts := fun _ w => (Returns (PList (map PStr w)), w);
     km_delete_account := fun _ _ w => (Returns tt, w);
     km_register_user := fun _ _ _ _ w => (Returns (PStr "key"), w);
     km_get_users := fun _ _ w => (Returns (PList []), w);
     km_remove_user := fun _ _ _ w => (Returns tt, w);
     km_set_role := fun _ _ _ _ w => (Returns tt, w) |}.

Definition start : run_state world := mkRun [] [].

(** Dev mode: no identity in the session, no key manager. *)
Definition dev_ctx : Context unit unit :=
  mkContext (mkSession None) (AppContext.make tt None).

(** A plain user of account "acme", in a process without a key manager. *)
Definition user_ctx : Context unit unit :=
  mkContext
    (mkSession
       (Some (ResolvedIdentity.make USER (Some "acme") (Some "bob") None)))
    (AppContext.make tt None).

(** What [permission_denied("ROOT role required")] returns. *)
Definition root_required : string :=
  Eval vm_compute in
    match permission_denied "ROOT role required" with
    | Returns text => text
    | Raises _ => EmptyString
    end.

(** What [permission_denied("Auth not configured (dev mode)")] returns. *)
Definition dev_mode : string :=
  Eval vm_compute in
    match permission_denied "Auth not configured (dev mode)" with
    | Returns text => text
    | Raises _ => EmptyString
    end.

End Demo.

(** ** bootstrap.py *)

(** The [argparse.Namespace] that [parse_args] returns. *)
Module Namespace.
Record t : Type := make {
  config : string;
  host : option string;
  port : option Z;
  transport : string
}.
End Namespace.

(** The options given on the command line, once [argparse] has split the
    arguments and converted [--port] to an integer; [None] for an option
    that is not given. *)
Record options : Type := mkOptions {
  opt_config : option string;
  opt_host : option string;
  opt_port : option Z;
  opt_transport : option string
}.

Definition CONFIG_ENV : string := "OPENVIKING_CONFIG_FILE".

(** [parse_args]: [environ] is [os.environ], [expanduser] is
    [os.path.expanduser].  A transport outside the choices makes [argparse]
    exit. *)
Definition parse_args (environ : string -> option string)
    (expanduser : string -> string) (given : options)
  : outcome Namespace.t :=
  let config_default :=
    match environ CONFIG_ENV with
    | Some path => path
    | None => expanduser "~/.openviking/ov.conf"
    end in
  let transport :=
    match opt_transport given with
    | Some t => t
    | None => "streamable-http"
    end in
  if String.eqb transport "streamable-http" || String.eqb transport "stdio"
  then
    Returns
      (Namespace.make
         (match opt_config given with
          | Some path => path
          | None => config_default
          end)
         (opt_host given) (opt_port given) transport)
  else Raises (BaseExceptionOnly "SystemExit").

(** The keyword arguments with which [create_mcp_server] calls
    [FastMCP(...)]; the argument [lifespan] is [app_lifespan]. *)
Module FastMCP.
Record t : Type := make {
  name : string;
  instructions : string;
  host : pyval;
  port : pyval;
  stateless_http : bool;
  json_response : bool
}.
End FastMCP.

(** [mcp.server.fastmcp.FastMCP] is not code of this package.  Its
    constructor checks the settings it is given and may raise; the
    decorator [mcp.tool()] registers the function of the given name on the
    server, which is passed on with the function registered. *)
Record FastMCPAPI (Server : Type) : Type := {
  FastMCP_new : FastMCP.t -> outcome Server;
  FastMCP_tool : string -> Server -> outcome Server
}.

Arguments FastMCP_new {Server} _ _.
Arguments FastMCP_tool {Server} _ _ _.

(** The mutable state of the process that [main] touches: [os.environ] and
    the module-level [server._server_config]. *)
Record process : Type := mkProcess {
  environ : string -> option string;
  server_config : option MCPServerConfig
}.

(** [os.environ.setdefault(key, value)]. *)
Definition setdefault (env : string -> option string) (key value : string)
  : string -> option string :=
  match env key with
  | Some _ => env
  | None => fun k => if String.eqb k key then Some value else env k
  end.

Section Bootstrap.

Variable Server : Type.
Variable fm : FastMCPAPI Server.

(** The functions that a [register_*_tools] function defines under
    [@mcp.tool()], registered in the order of the decorators. *)
Fixpoint register (names : list string) (mcp : Server) : outcome Server :=
  match names with
  | [] => Returns mcp
  | tool :: rest =>
      mcp <- FastMCP_tool fm tool mcp ;;
      register rest mcp
  end.

Definition register_system_tools : Server -> outcome Server :=
  register ["system_health"; "system_status"; "observer_status"].

Definition register_fs_tools : Server -> outcome Server :=
  register ["fs_ls"; "fs_tree"; "fs_stat"; "fs_mkdir"; "fs_rm"; "fs_mv"].

Definition register_content_tools : Server -> outcome Server :=
  register ["content_read"; "content_abstract"; "content_overview"].

Definition register_search_tools : Server -> outcome Server :=
  register ["search_find"; "search_search"; "search_grep"; "search_glob"].

Definition register_resource_tools : Server -> outcome Server :=
  register ["resource_add"; "skill_add"; "wait_processed"].

Definition register_session_tools : Server -> outcome Server :=
  register
    ["session_create"; "session_list"; "session_get"; "session_delete";
     "session_commit"; "session_extract"; "session_add_message"].

Definition register_relation_tools : Server -> outcome Server :=
  register ["relation_list"; "relation_link"; "relation_unlink"].

Definition register_admin_tools : Server -> outcome Server :=
  register
    ["admin_create_account"; "admin_list_accounts"; "admin_delete_account";
     "admin_register_user"; "admin_list_users"; "admin_remove_user";
     "admin_set_role"].

Definition register_pack_tools : Server -> outcome Server :=
  register ["pack_export"; "pack_import"].

(** [tools/__init__.py]: the registrations in the order of the calls. *)
Definition register_all_tools (mcp : Server) : outcome Server :=
  mcp <- register_system_tools mcp ;;
  mcp <- register_fs_tools mcp ;;
  mcp <- register_content_tools mcp ;;
  mcp <- register_search_tools mcp ;;
  mcp <- register_resource_tools mcp ;;
  mcp <- register_session_tools mcp ;;
  mcp <- register_relation_tools mcp ;;
  mcp <- register_admin_tools mcp ;;
  register_pack_tools mcp.

Definition INSTRUCTIONS : string :=
  "OpenViking Context Database MCP Server. "
    ++ "Provides tools for managing AI agent context: filesystem operations, "
    ++ "semantic search, resource management, session/memory management, "
    ++ "and more. All URIs use the viking:// protocol.".

(** The settings that [create_mcp_server] hands to [FastMCP(...)]. *)
Definition settings (config : MCPServerConfig) : FastMCP.t :=
  FastMCP.make "openviking-mcp" INSTRUCTIONS (host config) (port config)
    true true.

(** [server.create_mcp_server]: the configuration is stored in the
    module-level reference for [app_lifespan] to read, before the server
    is constructed; it stays stored when [FastMCP(...)] or a registration
    raises. *)
Definition create_mcp_server (config : MCPServerConfig) (p : process)
  : outcome Server * process :=
  (mcp <- FastMCP_new fm (settings config) ;;
   register_all_tools mcp,
   mkProcess (environ p) (Some config)).

(** [bootstrap.main] after [parse_args], up to [mcp.run]: the server and
    the transport it is run with.  The calls to the logger are left out. *)
Definition main (files : string -> option pyval) (args : Namespace.t)
    (p : process) : outcome (Server * string) * process :=
  let p1 :=
    mkProcess (setdefault (environ p) CONFIG_ENV (Namespace.config args))
      (server_config p) in
  match from_ov_conf files (Namespace.config args) with
  | Raises e => (Raises e, p1)
  | Returns config =>
      let config :=
        match Namespace.host args with
        | Some h =>
            mkMCPServerConfig (PStr h) (port config)
              (root_api_key config) (cors_origins config)
        | None => config
        end in
      let config :=
        match Namespace.port args with
        | Some n =>
            mkMCPServerConfig (host config) (PInt n)
              (root_api_key config) (cors_origins config)
        | None => config
        end in
      match create_mcp_server config p1 with
      | (Raises e, p2) => (Raises e, p2)
      | (Returns mcp, p2) =>
          if String.eqb (Namespace.transport args) "streamable-http"
          then (Returns (mcp, "streamable-http"), p2)
          else (Returns (mcp, "stdio"), p2)
      end
  end.

End Bootstrap.

Arguments register {Server} fm _ _.
Arguments register_all_tools {Server} fm _.
Arguments create_mcp_server {Server} fm _ _.
Arguments main {Server} fm _ _ _.

(** ** tools/content.py, tools/search.py, tools/sessions.py, tools/system.py:
    the tools that do more than pass their arguments on *)

(** What [observer.system], [observer.queue], ... give: a value of a
    built-in type, or an instance with a [__dict__]. *)
Inductive observed : Type :=
| Builtin (value : pyval)
| Instance (vars : pyval).

(** The calls these tools make into the service, as they appear in the
    trace of a run. *)
Inductive tool_call (SessionObj Part : Type) : Type :=
| fs_read_call (uri : string) (request_ctx : RequestContext.t)
    (offset limit : Z)
| fs_abstract_call (uri : string) (request_ctx : RequestContext.t)
| fs_overview_call (uri : string) (request_ctx : RequestContext.t)
| sessions_session_call (request_ctx : RequestContext.t) (session_id : string)
| session_load_call (session : SessionObj)
| session_add_message_call (session : SessionObj) (role : string)
    (parts : list Part)
| search_search_call (query : string) (request_ctx : RequestContext.t)
    (target_uri : string) (session : option SessionObj) (limit : Z)
    (score_threshold : pyval)
| observer_call (component : string).
Arguments fs_read_call {SessionObj Part} _ _ _ _.
Arguments fs_abstract_call {SessionObj Part} _ _.
Arguments fs_overview_call {SessionObj Part} _ _.
Arguments sessions_session_call {SessionObj Part} _ _.
Arguments session_load_call {SessionObj Part} _.
Arguments session_add_message_call {SessionObj Part} _ _ _.
Arguments search_search_call {SessionObj Part} _ _ _ _ _ _.
Arguments observer_call {SessionObj Part} _.

(** The payload built in place by [observer_status] and
    [session_add_message] for a bad argument. *)
Definition invalid_argument (msg : string) : outcome string :=
  Json.dumps Json.NoDefault
    (PDict [("error", PBool true); ("code", PStr "INVALID_ARGUMENT");
            ("message", PStr msg)]).

(** [[f(p) for p in parts]] for an [f] that may raise. *)
Fixpoint comprehension {A B} (f : A -> outcome B) (l : list A)
  : outcome (list B) :=
  match l with
  | [] => Returns []
  | x :: l' =>
      y <- f x ;;
      ys <- comprehension f l' ;;
      Returns (y :: ys)
  end.

Section ServiceTools.

Variable world : Type.
Variable Service : Type.
Variable APIKeyManager : Type.
Variable SessionObj : Type.
Variable Part : Type.

(** The world together with the trace of the calls of these tools. *)
Definition traced : Type := world * list (tool_call SessionObj Part).

(** The methods these tools call on the service, on a session object and
    in [openviking.message.part]. *)
Record ToolsAPI : Type := {
  fs_read :
    Service -> string -> RequestContext.t -> Z -> Z -> effect world pyval;
  fs_abstract : Service -> string -> RequestContext.t -> effect world pyval;
  fs_overview : Service -> string -> RequestContext.t -> effect world pyval;
  sessions_session :
    Service -> RequestContext.t -> string -> effect world SessionObj;
  session_load : SessionObj -> effect world unit;
  session_add_message_method :
    SessionObj -> string -> list Part -> effect world unit;
  session_messages_len : SessionObj -> world -> Z;
  TextPart : string -> Part;
  part_from_dict : pyval -> outcome Part;
  search_search_method :
    Service -> string -> RequestContext.t -> string -> option SessionObj ->
    Z -> pyval -> effect world pyval;
  observer_component : Service -> string -> effect world observed
}.

Variable api : ToolsAPI.

Let Ctx : Type := Context Service APIKeyManager.

(** A call into the service, entered in the trace. *)
Definition call_out {A} (c : tool_call SessionObj Part) (f : effect world A)
  : M traced A :=
  fun st =>
    let (r, w) := f (fst (ext st)) in
    (r, mkRun (w, snd (ext st) ++ [c]) (calls st)).

(** [len(session.messages)]: a read of the world. *)
Definition read_messages_len (session : SessionObj) : M traced Z :=
  fun st => (Returns (session_messages_len api session (fst (ext st))), st).

(** [result if isinstance(result, str) else json.dumps(result, default=str)]. *)
Definition str_or_dumps (result : pyval) : outcome string :=
  match result with
  | PStr text => Returns text
  | _ => Json.dumps Json.DefaultStr result
  end.

(** *** tools/content.py *)

Definition content_read (uri : string) (offset limit : Z) (ctx : Ctx)
  : M traced string :=
  try_except_OpenVikingError
    (let app := get_app ctx in
     let request_ctx := get_request_context ctx in
     result <~
       call_out (fs_read_call uri request_ctx offset limit)
         (fs_read api (AppContext.service app) uri request_ctx offset limit) ;;
     lift (str_or_dumps result))
    (fun e => lift (format_error e)).

Definition content_abstract (uri : string) (ctx : Ctx) : M traced string :=
  try_except_OpenVikingError
    (let app := get_app ctx in
     let request_ctx := get_request_context ctx in
     result <~
       call_out (fs_abstract_call uri request_ctx)
         (fs_abstract api (AppContext.service app) uri request_ctx) ;;
     lift (str_or_dumps result))
    (fun e => lift (format_error e)).

Definition content_overview (uri : string) (ctx : Ctx) : M traced string :=
  try_except_OpenVikingError
    (let app := get_app ctx in
     let request_ctx := get_request_context ctx in
     result <~
       call_out (fs_overview_call uri request_ctx)
         (fs_overview api (AppContext.service app) uri request_ctx) ;;
     lift (str_or_dumps result))
    (fun e => lift (format_error e)).

(** *** tools/search.py *)

(** [search_search]: [score_threshold] is passed on as it comes. *)
Definition search_search (query target_uri : string)
    (session_id : option string) (limit : Z) (score_threshold : pyval)
    (ctx : Ctx) : M traced string :=
  try_except_OpenVikingError
    (let app := get_app ctx in
     let request_ctx := get_request_context ctx in
     session <~
       (match session_id with
        | Some id =>
            if String.eqb id EmptyString then ret None
            else
              session <~
                call_out (sessions_session_call request_ctx id)
                  (sessions_session api (AppContext.service app)
                     request_ctx id) ;;
              _ <~ call_out (session_load_call session)
                     (session_load api session) ;;
              ret (Some session)
        | None => ret None
        end) ;;
     result <~
       call_out
         (search_search_call query request_ctx target_uri session limit
            score_threshold)
         (search_search_method api (AppContext.service app) query request_ctx
            target_uri session limit score_threshold) ;;
     lift (Json.dumps Json.DefaultStr result))
    (fun e => lift (format_error e)).

(** *** tools/sessions.py *)

Definition session_add_message (session_id role : string)
    (content : option string) (parts : option (list pyval)) (ctx : Ctx)
  : M traced string :=
  try_except_OpenVikingError
    (let app := get_app ctx in
     let request_ctx := get_request_context ctx in
     session <~
       call_out (sessions_session_call request_ctx session_id)
         (sessions_session api (AppContext.service app)
            request_ctx session_id) ;;
     _ <~ call_out (session_load_call session) (session_load api session) ;;
     let add (msg_parts : list Part) : M traced string :=
       _ <~ call_out (session_add_message_call session role msg_parts)
              (session_add_message_method api session role msg_parts) ;;
       count <~ read_messages_len session ;;
       lift (Json.dumps Json.NoDefault
               (PDict [("session_id", PStr session_id);
                       ("message_count", PInt count)])) in
     match content with
     | Some text => add [TextPart api text]
     | None =>
         match parts with
         | Some dicts =>
             msg_parts <~ lift (comprehension (part_from_dict api) dicts) ;;
             add msg_parts
         | None =>
             lift (invalid_argument
                     "Either content or parts must be provided")
         end
     end)
    (fun e => lift (format_error e)).

(** *** tools/system.py *)

Definition observer_status (component : option string) (ctx : Ctx)
  : M traced string :=
  try_except_OpenVikingError
    (let app := get_app ctx in
     let read (attribute : string) : M traced string :=
       result <~
         call_out (observer_call attribute)
           (observer_component api (AppContext.service app) attribute) ;;
       match result with
       | Instance vars => lift (Json.dumps Json.DefaultStr vars)
       | Builtin value => lift (Json.dumps Json.DefaultStr value)
       end in
     match component with
     | None => read "system"
     | Some name =>
         if String.eqb name "queue" then read "queue"
         else if String.eqb name "vikingdb" then read "vikingdb"
         else if String.eqb name "vlm" then read "vlm"
         else if String.eqb name "transaction" then read "transaction"
         else
           lift (invalid_argument
                   (String.append "Unknown component: "
                      (String.append name
                         ". Valid: queue, vikingdb, vlm, transaction")))
     end)
    (fun e => lift (format_error e)).

(** The tools above, each with its arguments. *)
Inductive service_tool : Type :=
| Content_read (uri : string) (offset limit : Z)
| Content_abstract (uri : string)
| Content_overview (uri : string)
| Search_search (query target_uri : string) (session_id : option string)
    (limit : Z) (score_threshold : pyval)
| Session_add_message (session_id role : string) (content : option string)
    (parts : option (list pyval))
| Observer_status (component : option string).

Definition call_service_tool (tool : service_tool) (ctx : Ctx)
  : M traced string :=
  match tool with
  | Content_read uri offset limit => content_read uri offset limit ctx
  | Content_abstract uri => content_abstract uri ctx
  | Content_overview uri => content_overview uri ctx
  | Search_search query target_uri session_id limit score_threshold =>
      search_search query target_uri session_id limit score_threshold ctx
  | Session_add_message session_id role content parts =>
      session_add_message session_id role content parts ctx
  | Observer_status component => observer_status component ctx
  end.

End ServiceTools.

Arguments fs_read {world Service SessionObj Part} _ _ _ _ _ _ _.
Arguments fs_abstract {world Service SessionObj Part} _ _ _ _ _.
Arguments fs_overview {world Service SessionObj Part} _ _ _ _ _.
Arguments sessions_session {world Service SessionObj Part} _ _ _ _ _.
Arguments session_load {world Service SessionObj Part} _ _ _.
Arguments session_add_message_method {world Service SessionObj Part} _ _ _ _ _.
Arguments session_messages_len {world Service SessionObj Part} _ _ _.
Arguments TextPart {world Service SessionObj Part} _ _.
Arguments part_from_dict {world Service SessionObj Part} _ _.
Arguments search_search_method {world Service SessionObj Part} _ _ _ _ _ _ _ _ _.
Arguments observer_component {world Service SessionObj Part} _ _ _ _.
Arguments call_out {world SessionObj Part A} _ _ _.
Arguments content_read {world Service APIKeyManager SessionObj Part} api _ _ _ _ _.
Arguments content_abstract {world Service APIKeyManager SessionObj Part} api _ _ _.
Arguments content_overview {world Service APIKeyManager SessionObj Part} api _ _ _.
Arguments search_search {world Service APIKeyManager SessionObj Part} api _ _ _ _ _ _ _.
Arguments session_add_message {world Service APIKeyManager SessionObj Part} api _ _ _ _ _ _.
Arguments observer_status {world Service APIKeyManager SessionObj Part} api _ _ _.
Arguments call_service_tool {world Service APIKeyManager SessionObj Part} api _ _ _.

(** ** Notions used to state further properties of the code *)

(** The entry that the key-manager call of each admin tool leaves in the
    log. *)
Definition manager_call (tool : admin_tool) : call :=
  match tool with
  | Admin_create_account account_id admin_user_id =>
      api_key_manager_create_account account_id admin_user_id
  | Admin_list_accounts => api_key_manager_get_accounts
  | Admin_delete_account account_id =>
      api_key_manager_delete_account account_id
  | Admin_register_user account_id user_id role =>
      api_key_manager_register_user account_id user_id role
  | Admin_list_users account_id => api_key_manager_get_users account_id
  | Admin_remove_user account_id user_id =>
      api_key_manager_remove_user account_id user_id
  | Admin_set_role account_id user_id role =>
      api_key_manager_set_role account_id user_id role
  end.

(** Whether the outcome of a call is a return, whatever it returns. *)
Definition completion {A} (o : outcome A) : outcome unit :=
  match o with
  | Returns _ => Returns tt
  | Raises e => Raises e
  end.

(** The key-manager method that each admin tool calls, with the value it
    returns dropped. *)
Definition manager_effect {world APIKeyManager}
    (km : APIKeyManagerAPI world APIKeyManager) (tool : admin_tool)
    (manager : APIKeyManager) : effect world unit :=
  fun w =>
    match tool with
    | Admin_create_account account_id admin_user_id =>
        let (r, w') := km_create_account km manager account_id admin_user_id w
        in (completion r, w')
    | Admin_list_accounts =>
        let (r, w') := km_get_accounts km manager w in (completion r, w')
    | Admin_delete_account account_id =>
        let (r, w') := km_delete_account km manager account_id w
        in (completion r, w')
    | Admin_register_user account_id user_id role =>
        let (r, w') := km_register_user km manager account_id user_id role w
        in (completion r, w')
    | Admin_list_users account_id =>
        let (r, w') := km_get_users km manager account_id w
        in (completion r, w')
    | Admin_remove_user account_id user_id =>
        let (r, w') := km_remove_user km manager account_id user_id w
        in (completion r, w')
    | Admin_set_role account_id user_id role =>
        let (r, w') := km_set_role km manager account_id user_id role w
        in (completion r, w')
    end.

(** A character from space to tilde. *)
Definition printable (c : ascii) : bool :=
  let n := N_of_ascii c in (32 <=? n)%N && (n <=? 126)%N.

(** The object an INVALID_ARGUMENT payload parses back to. *)
Definition invalid_argument_object (msg : string) : pyval :=
  PDict [("error", PBool true); ("code", PStr "INVALID_ARGUMENT");
         ("message", PStr msg)].

(** The component names that [observer_status] knows. *)
Definition observer_components : list string :=
  ["queue"; "vikingdb"; "vlm"; "transaction"].

(** A configuration with a root key. *)
Definition secret_config : MCPServerConfig :=
  mkMCPServerConfig (PStr "0.0.0.0") (PInt 2033) (PStr "secret")
    (PList [PStr "*"]).

(** ** Further instances of the outside world *)

Module Demo2.

(** A key store in which account creation fails with a domain error. *)
Definition conflict : OpenVikingError :=
  mkOpenVikingError "ALREADY_EXISTS" "Account already exists" (PDict []).

Definition km : APIKeyManagerAPI Demo.world unit :=
  {| km_new := fun _ _ w => (Returns tt, w);
     km_load := fun _ w =>
       (Raises (OtherException "ConnectionError" "store unreachable"), w);
     km_resolve := fun _ _ w => (Raises (BaseExceptionOnly "KeyboardInterrupt"), w);
     km_create_account := fun _ _ _ w => (Raises (OVError conflict), w);
     km_get_accounts := fun _ w => (Returns (PList (map PStr w)), w);
     km_delete_account := fun _ _ w => (Returns tt, w);
     km_register_user := fun _ _ _ _ w => (Returns (PStr "key"), w);
     km_get_users := fun _ _ w => (Returns (PList []), w);
     km_remove_user := fun _ _ _ w => (Returns tt, w);
     km_set_role := fun _ _ _ _ w => (Returns tt, w) |}.

(** A service whose directory initialisation fails with a domain error. *)
Definition failure : OpenVikingError :=
  mkOpenVikingError "INTERNAL" "Cannot create directories" (PDict []).

Definition svc : ServiceAPI Demo.world unit :=
  {| svc_new := fun w => (Returns tt, w);
     svc_initialize := fun _ w => (Returns tt, w);
     svc_close := fun _ w => (Returns tt, w);
     svc_agfs_url := fun _ => PStr "http://localhost:1833";
     svc_initialize_account_directories :=
       fun _ _ w => (Raises (OVError failure), w);
     svc_initialize_user_directories := fun _ _ w => (Returns tt, w) |}.

(** ROOT, in a process with a key manager. *)
Definition root_ctx : Context unit unit :=
  mkContext
    (mkSession (Some (ResolvedIdentity.make ROOT None None None)))
    (AppContext.make tt (Some tt)).

(** No identity in the session, in a process with a key manager. *)
Definition anonymous_ctx : Context unit unit :=
  mkContext (mkSession None) (AppContext.make tt (Some tt)).

(** An ADMIN whose identity has no account. *)
Definition admin_ctx : Context unit unit :=
  mkContext
    (mkSession (Some (ResolvedIdentity.make ADMIN None (Some "ann") None)))
    (AppContext.make tt (Some tt)).

(** The world of the service tools: the number of messages of the one
    session; a message part is a string. *)
Definition api : ToolsAPI nat unit unit string :=
  {| fs_read := fun _ uri _ _ _ w => (Returns (PStr uri), w);
     fs_abstract := fun _ _ _ w => (Returns (PList [PInt 1]), w);
     fs_overview := fun _ _ _ w => (Returns PNone, w);
     sessions_session := fun _ _ _ w => (Returns tt, w);
     session_load := fun _ w => (Returns tt, w);
     session_add_message_method := fun _ _ _ w => (Returns tt, S w);
     session_messages_len := fun _ w => Z.of_nat w;
     TextPart := fun text => text;
     part_from_dict := fun p =>
       match p with
       | PDict [("type", PStr "text"); ("text", PStr text)] => Returns text
       | _ => Raises (OtherException "ValueError" "Unknown part type")
       end;
     search_search_method := fun _ _ _ _ _ _ _ w => (Returns (PList []), w);
     observer_component := fun _ _ w => (Returns (Builtin PNone), w) |}.

Definition start : run_state (traced nat unit string) := mkRun (0, []) [].

(** A FastMCP whose server is the list of the tools registered, and whose
    constructor refuses a host that is not a string and a port that is
    not an integer. *)
Definition fm : FastMCPAPI (list string) :=
  {| FastMCP_new := fun s =>
       match FastMCP.host s, FastMCP.port s with
       | PStr _, PInt _ => Returns []
       | _, _ => Raises (OtherException "ValidationError" "FastMCP settings")
       end;
     FastMCP_tool := fun tool mcp => Returns (mcp ++ [tool]) |}.

(** A domain error whose message has a character outside ASCII, of code
    point 233. *)
Definition accent_error : OpenVikingError :=
  mkOpenVikingError "NOT_FOUND" (String "233"%char EmptyString) (PDict []).

(** What [format_error] returns for it. *)
Definition accent_envelope : string :=
  Eval vm_compute in
    match format_error accent_error with
    | Returns text => text
    | Raises _ => EmptyString
    end.

End Demo2.

(** * Facts about the json module *)

Module JsonFacts.
Import Json JsonAux.


Ltac each_char c :=
  destruct c as [[] [] [] [] [] [] [] []].

Lemma scanstring_escape_char (c : ascii) (s acc : chars) :
  scanstring (escape_char c ++ s) acc = scanstring s (c :: acc).
Proof. each_char c; reflexivity. Qed.

Lemma scanstring_escaped (l : chars) (rest acc : chars) :
  scanstring (flat_map escape_char l ++ quote :: rest) acc
  = Some (string_of_list_ascii (rev acc ++ l), rest).
Proof.
  revert acc; induction l as [|c l IH]; intros acc.
  - simpl. now rewrite app_nil_r.
  - simpl flat_map. rewrite <- app_assoc, scanstring_escape_char, IH.
    simpl. now rewrite <- app_assoc.
Qed.

Lemma scanstring_encode_basestring (s : string) (rest : chars) :
  exists body,
    encode_basestring_ascii s ++ rest = quote :: body
    /\ scanstring body [] = Some (s, rest).
Proof.
  unfold encode_basestring_ascii.
  exists (flat_map escape_char (lit s) ++ quote :: rest). split.
  - simpl. now rewrite <- app_assoc.
  - rewrite scanstring_escaped. simpl. unfold lit.
    now rewrite string_of_list_ascii_of_string.
Qed.



Lemma scan_digits_stop (rest : chars) :
  delimited rest = true -> scan_digits rest = (Decimal.Nil, rest).
Proof.
  destruct rest as [|c r]; [reflexivity|].
  unfold delimited, is_digit. simpl scan_digits.
  destruct (digit_of c); simpl; [discriminate | reflexivity].
Qed.

Lemma scan_digits_print_uint (d : Decimal.uint) (rest : chars) :
  delimited rest = true ->
  scan_digits (print_uint d ++ rest) = (d, rest).
Proof.
  intros H. induction d; simpl print_uint;
    [ now apply scan_digits_stop
    | change ((?c :: ?l) ++ rest) with (c :: (l ++ rest));
      cbn [scan_digits]; rewrite IHd; reflexivity .. ].
Qed.

Lemma to_uint_leading (p : positive) : leading_nonzero (Pos.to_uint p) = true.
Proof.
  pose proof (DecimalPos.Unsigned.to_uint_nonnil p) as Hnil.
  pose proof (DecimalPos.Unsigned.to_uint_nonzero p) as Hz.
  pose proof (DecimalPos.Unsigned.to_of (Pos.to_uint p)) as Hn.
  rewrite DecimalPos.Unsigned.of_to in Hn. simpl in Hn.
  destruct (Pos.to_uint p) as [|d| | | | | | | | | ] eqn:E; try reflexivity.
  - congruence.
  - exfalso. rewrite DecimalFacts.unorm_D0 in Hn.
    destruct (Decimal.nzhead d) eqn:En;
      try (rewrite DecimalFacts.unorm_nzhead in Hn by congruence;
           apply (DecimalFacts.nzhead_nonzero d d); congruence).
    apply DecimalFacts.unorm_0 in En. rewrite En in Hn. congruence.
Qed.

Lemma scan_integer_to_uint (p : positive) (rest : chars) :
  delimited rest = true ->
  scan_integer (print_uint (Pos.to_uint p) ++ rest) = Some (Npos p, rest).
Proof.
  intros H. pose proof (to_uint_leading p) as L.
  pose proof (DecimalPos.Unsigned.of_to p) as V.
  pose proof (scan_digits_print_uint (Pos.to_uint p) rest H) as S.
  change (Pos.of_uint (Pos.to_uint p)) with (N.of_uint (Pos.to_uint p)) in V.
  destruct (Pos.to_uint p) as [|d|d|d|d|d|d|d|d|d|d]; try discriminate L;
    simpl print_uint in *;
    change ((?c :: ?l) ++ rest) with (c :: (l ++ rest)) in *;
    unfold scan_integer; rewrite S, V; reflexivity.
Qed.

Lemma match_number_int_repr (z : Z) (rest : chars) :
  delimited rest = true ->
  match_number (int_repr z ++ rest) = Some (PInt z, rest).
Proof.
  intros H.
  assert (F : starts_float_part rest = false).
  { destruct rest; [reflexivity|]. unfold delimited in H.
    apply andb_true_iff in H. destruct H as [_ H].
    now apply negb_true_iff in H. }
  destruct z as [|p|p].
  - simpl. rewrite F. reflexivity.
  - pose proof (scan_integer_to_uint p rest H) as S.
    pose proof (to_uint_leading p) as L.
    unfold int_repr.
    destruct (Pos.to_uint p) as [|d|d|d|d|d|d|d|d|d|d]; try discriminate L;
      simpl print_uint in *;
      change ((?c :: ?l) ++ rest) with (c :: (l ++ rest)) in *;
      unfold match_number; cbn [digit_char ascii_of_nat Ascii.eqb];
      simpl Ascii.eqb; cbv iota; rewrite S, F; reflexivity.
  - unfold int_repr, match_number.
    change ((?c :: ?l) ++ rest) with (c :: (l ++ rest)).
    simpl Ascii.eqb. cbv iota.
    rewrite (scan_integer_to_uint p rest H), F. reflexivity.
Qed.



Lemma int_repr_head (z : Z) :
  exists c r, int_repr z = c :: r /\ number_start c = true.
Proof.
  destruct z as [|p|p].
  - now exists (digit_char 0), [].
  - unfold int_repr. pose proof (to_uint_leading p) as L.
    destruct (Pos.to_uint p); try discriminate L; simpl;
      eexists; eexists; split; reflexivity.
  - unfold int_repr. eexists; eexists; split; reflexivity.
Qed.

Lemma number_start_value_start (c : ascii) :
  number_start c = true -> value_start c = true.
Proof. each_char c; vm_compute; congruence. Qed.

Lemma iterencode_head default (v : pyval) (t : chars) :
  iterencode default v = Returns t ->
  exists c r, t = c :: r /\ value_start c = true.
Proof.
  destruct v as [|[]|z|s|l|d|s]; simpl; intros H.
  - inversion H. eexists; eexists; split; reflexivity.
  - inversion H. eexists; eexists; split; reflexivity.
  - inversion H. eexists; eexists; split; reflexivity.
  - inversion H. destruct (int_repr_head z) as (c & r & E & S).
    exists c, r. split; [assumption|]. now apply number_start_value_start.
  - inversion H. eexists; eexists; split; reflexivity.
  - destruct l as [|x l].
    + inversion H. eexists; eexists; split; reflexivity.
    + destruct (iterencode default x); [|discriminate].
      destruct (list_others _ l); [|discriminate].
      inversion H. eexists; eexists; split; reflexivity.
  - destruct d as [|[k x] d].
    + inversion H. eexists; eexists; split; reflexivity.
    + destruct (iterencode default x); [|discriminate].
      destruct (dict_others _ d); [|discriminate].
      inversion H. eexists; eexists; split; reflexivity.
  - destruct default; [discriminate|].
    inversion H. eexists; eexists; split; reflexivity.
Qed.

Lemma value_start_not_ws (c : ascii) :
  value_start c = true -> is_ws c = false.
Proof. each_char c; vm_compute; congruence. Qed.

Lemma value_start_not_close (c : ascii) :
  value_start c = true -> Ascii.eqb c "]" = false.
Proof. each_char c; vm_compute; congruence. Qed.

Lemma skip_ws_value (c : ascii) (r : chars) :
  value_start c = true -> skip_ws (c :: r) = c :: r.
Proof. intros H. simpl. now rewrite (value_start_not_ws c H). Qed.

Lemma scan_once_number (fuel : nat) (c : ascii) (r : chars) :
  number_start c = true ->
  scan_once (S fuel) (c :: r) = match_number (c :: r).
Proof. each_char c; try (vm_compute; congruence); intros _; reflexivity. Qed.



Lemma dict_set_fresh (d : list (string * pyval)) (k : string) (v : pyval) :
  existsb (String.eqb k) (map fst d) = false ->
  dict_set d k v = d ++ [(k, v)].
Proof.
  induction d as [|[k' v'] d IH]; simpl; intros H; [reflexivity|].
  apply orb_false_iff in H. destruct H as [H1 H2].
  rewrite String.eqb_sym, H1, IH by assumption. reflexivity.
Qed.

Lemma fold_dict_set (l d : list (string * pyval)) :
  distinct (map fst (d ++ l)) = true ->
  fold_left (fun d kv => dict_set d (fst kv) (snd kv)) l d = d ++ l.
Proof.
  revert d. induction l as [|[k v] l IH]; intros d H; simpl.
  - now rewrite app_nil_r.
  - assert (F : existsb (String.eqb k) (map fst d) = false).
    { clear IH. induction d as [|[k' v'] d IHd]; [reflexivity|].
      simpl in H. apply andb_true_iff in H. destruct H as [H1 H2].
      simpl. rewrite (IHd H2), orb_false_r.
      apply negb_true_iff in H1. rewrite map_app, existsb_app in H1.
      apply orb_false_iff in H1. destruct H1 as [_ H1]. simpl in H1.
      apply orb_false_iff in H1. destruct H1 as [H1 _].
      now rewrite String.eqb_sym. }
    rewrite dict_set_fresh by assumption.
    rewrite IH; rewrite <- app_assoc; [reflexivity | exact H].
Qed.

Lemma dict_of_pairs_distinct (l : list (string * pyval)) :
  distinct (map fst l) = true -> dict_of_pairs l = l.
Proof. intros H. unfold dict_of_pairs. now rewrite fold_dict_set. Qed.


Lemma skip_ws_encoded default (v : pyval) (t s : chars) :
  iterencode default v = Returns t -> skip_ws (t ++ s) = t ++ s.
Proof.
  intros H. destruct (iterencode_head _ _ _ H) as (c & r & -> & Sc).
  now apply skip_ws_value.
Qed.

Lemma array_loop_eq (fuel : nat) (s : chars) :
  array_loop (S fuel) s =
  match scan_once fuel s with
  | None => None
  | Some (value, r) =>
      match skip_ws r with
      | c :: r' =>
          if Ascii.eqb c "]" then Some ([value], r')
          else if Ascii.eqb c "," then
            match array_loop fuel (skip_ws r') with
            | Some (values, r'') => Some (value :: values, r'')
            | None => None
            end
          else None
      | [] => None
      end
  end.
Proof. reflexivity. Qed.

Lemma object_loop_eq (fuel : nat) (s : chars) :
  object_loop (S fuel) s =
  match scanstring s [] with
  | None => None
  | Some (key, r) =>
      match skip_ws r with
      | c :: r1 =>
          if Ascii.eqb c ":" then
            match scan_once fuel (skip_ws r1) with
            | None => None
            | Some (value, r2) =>
                match skip_ws r2 with
                | c' :: r3 =>
                    if Ascii.eqb c' "}" then Some ([(key, value)], r3)
                    else if Ascii.eqb c' "," then
                      match skip_ws r3 with
                      | q :: r4 =>
                          if Ascii.eqb q quote then
                            match object_loop fuel r4 with
                            | Some (pairs, r5) =>
                                Some ((key, value) :: pairs, r5)
                            | None => None
                            end
                          else None
                      | [] => None
                      end
                    else None
                | [] => None
                end
            end
          else None
      | [] => None
      end
  end.
Proof. reflexivity. Qed.

Lemma array_loop_items default (l : list pyval) :
  Forall (decodes default) l -> forallb keys_unique l = true ->
  forall ts, list_others (iterencode default) l = Returns ts ->
  forall x tx, decodes default x -> keys_unique x = true ->
    iterencode default x = Returns tx ->
  forall fuel rest, List.length (tx ++ ts) < fuel ->
    array_loop fuel (tx ++ ts ++ rest)
    = Some (rendered x :: map rendered l, rest).
Proof.
  induction 1 as [|y l Hy Hl IH];
    intros Hk ts Hts x tx Hx Hkx Htx fuel rest Hf;
    (destruct fuel as [|f]; [simpl in Hf; lia|]);
    rewrite length_app in Hf; rewrite array_loop_eq.
  - simpl in Hts. inversion Hts; subst ts. simpl in Hf.
    rewrite (Hx tx Htx Hkx f _) by (reflexivity || lia).
    reflexivity.
  - simpl in Hts. simpl in Hk. apply andb_true_iff in Hk. destruct Hk as [Hky Hkl].
    destruct (iterencode default y) as [ty|] eqn:Ety; [|discriminate].
    destruct (list_others (iterencode default) l) as [ts'|] eqn:Ets; [|discriminate].
    inversion Hts; subst ts; clear Hts.
    simpl in Hf. rewrite length_app in Hf.
    rewrite (Hx tx Htx Hkx f _) by (reflexivity || lia).
    simpl app. rewrite <- app_assoc.
    cbn [skip_ws is_ws Ascii.eqb Bool.eqb orb]. cbv iota.
    rewrite (skip_ws_encoded _ _ _ _ Ety).
    rewrite (IH Hkl ts' eq_refl y ty Hy Hky Ety f rest)
      by (rewrite length_app; lia).
    reflexivity.
Qed.

Ltac lens :=
  unfold encode_basestring_ascii, lit in *;
  cbn [list_ascii_of_string app] in *;
  repeat match goal with
         | H : context [List.length (_ ++ _)] |- _ => rewrite length_app in H
         | H : context [List.length (_ :: _)] |- _ => cbn [List.length] in H
         end;
  repeat (rewrite length_app || (progress cbn [List.length]));
  lia.

Lemma object_loop_items default (l : list (string * pyval)) :
  Forall (fun kv => decodes default (snd kv)) l ->
  forallb (fun kv => keys_unique (snd kv)) l = true ->
  forall ts, dict_others (iterencode default) l = Returns ts ->
  forall key x tx, decodes default x -> keys_unique x = true ->
    iterencode default x = Returns tx ->
  forall fuel rest,
    List.length (encode_basestring_ascii key ++ lit ": " ++ tx ++ ts) < fuel ->
    exists body,
      encode_basestring_ascii key ++ lit ": " ++ tx ++ ts ++ rest
      = quote :: body
      /\ object_loop fuel body
         = Some ((key, rendered x)
                   :: map (fun kv => (fst kv, rendered (snd kv))) l, rest).
Proof.
  induction 1 as [|[k y] l Hy Hl IH];
    intros Hk ts Hts key x tx Hx Hkx Htx fuel rest Hf;
    (destruct fuel as [|f]; [exfalso; lens|]);
    destruct (scanstring_encode_basestring key (lit ": " ++ tx ++ ts ++ rest))
      as (body & Eb & Sb);
    exists body; (split; [exact Eb|]);
    rewrite object_loop_eq, Sb;
    simpl app; cbn [skip_ws is_ws Ascii.eqb Bool.eqb orb]; cbv iota;
    rewrite (skip_ws_encoded _ _ _ _ Htx).
  - simpl in Hts. inversion Hts; subst ts.
    rewrite (Hx tx Htx Hkx f _); [reflexivity | lens | reflexivity].
  - simpl in Hts. simpl in Hk. apply andb_true_iff in Hk.
    destruct Hk as [Hky Hkl]. simpl in Hy.
    destruct (iterencode default y) as [ty|] eqn:Ety; [|discriminate].
    destruct (dict_others (iterencode default) l) as [ts'|] eqn:Ets;
      [|discriminate].
    inversion Hts; subst ts; clear Hts.
    rewrite (Hx tx Htx Hkx f _); [| lens | reflexivity].
    simpl app. rewrite <- !app_assoc.
    cbn [skip_ws is_ws Ascii.eqb Bool.eqb orb]. cbv iota.
    destruct (IH Hkl ts' eq_refl k y ty Hy Hky Ety f rest)
      as (body' & Eb' & Sb'); [lens|].
    change (is_ws quote) with false. cbv iota.
    change (Ascii.eqb quote quote) with true. cbv iota.
    match goal with
    | |- context [object_loop f ?R] =>
        replace R with body'
          by (apply (f_equal (@tl ascii)) in Eb'; simpl tl in Eb';
              rewrite <- Eb'; simpl; rewrite <- ?app_assoc; reflexivity)
    end.
    rewrite Sb'. reflexivity.
Qed.

Lemma scan_once_iterencode default (v : pyval) : decodes default v.
Proof.
  induction v as [|b|z|s|l IH|d IH|s] using pyval_nested_ind;
    intros t Ht Hk fuel rest Hf Hr;
    (destruct fuel as [|f]; [lia|]).
  - inversion Ht; subst t. reflexivity.
  - destruct b; inversion Ht; subst t; reflexivity.
  - simpl in Ht. inversion Ht; subst t.
    destruct (int_repr_head z) as (c & r & E & S).
    change (rendered (PInt z)) with (PInt z).
    rewrite <- (match_number_int_repr z rest Hr).
    rewrite E. now apply scan_once_number.
  - simpl in Ht. inversion Ht; subst t.
    destruct (scanstring_encode_basestring s rest) as (body & -> & Sb).
    simpl. now rewrite Sb.
  - destruct l as [|x l].
    + inversion Ht; subst t. reflexivity.
    + simpl in Ht. simpl in Hk. apply andb_true_iff in Hk.
      destruct Hk as [Hkx Hkl].
      destruct (iterencode default x) as [tx|] eqn:Etx; [|discriminate].
      destruct (list_others (iterencode default) l) as [ts|] eqn:Ets;
        [|discriminate].
      inversion Ht; subst t; clear Ht.
      inversion IH as [|? ? Hx Hl]; subst.
      pose proof (array_loop_items default l Hl Hkl ts Ets x tx Hx Hkx Etx
                    f rest) as A.
      destruct (iterencode_head _ _ _ Etx) as (c & r & Ec & Sc).
      simpl app. rewrite <- app_assoc.
      cbn [scan_once]. 
      change (Ascii.eqb "[" quote) with false.
      change (Ascii.eqb "[" "{") with false.
      change (Ascii.eqb "[" "[") with true. cbv iota.
      rewrite (skip_ws_encoded _ _ _ _ Etx).
      rewrite Ec at 1. simpl app.
      cbv iota. rewrite (value_start_not_close c Sc).
      rewrite app_comm_cons, <- Ec.
      rewrite A by lens. reflexivity.
  - destruct d as [|[k x] d].
    + inversion Ht; subst t. reflexivity.
    + simpl in Ht. simpl in Hk. apply andb_true_iff in Hk.
      destruct Hk as [Hdist Hk]. apply andb_true_iff in Hk.
      destruct Hk as [Hkx Hkl].
      destruct (iterencode default x) as [tx|] eqn:Etx; [|discriminate].
      destruct (dict_others (iterencode default) d) as [ts|] eqn:Ets;
        [|discriminate].
      inversion Ht; subst t; clear Ht.
      inversion IH as [|? ? Hx Hl]; subst. simpl in Hx.
      destruct (object_loop_items default d Hl Hkl ts Ets k x tx Hx Hkx Etx
                  f rest) as (body & Eb & Sb); [lens|].
      rewrite <- app_comm_cons.
      match goal with
      | |- scan_once (S f) (_ :: ?R) = _ =>
          replace R with (quote :: body)
            by (rewrite <- Eb; unfold encode_basestring_ascii;
                repeat (rewrite <- app_assoc || (progress simpl app));
                reflexivity)
      end.
      cbn [scan_once].
      change (Ascii.eqb "{" quote) with false.
      change (Ascii.eqb "{" "{") with true. cbv iota.
      change (skip_ws (quote :: body)) with (quote :: body).
      change (Ascii.eqb quote "}") with false.
      change (Ascii.eqb quote quote) with true. cbv iota.
      rewrite Sb.
      rewrite dict_of_pairs_distinct; [reflexivity|].
      simpl map. rewrite map_map. simpl. exact Hdist.
  - simpl in Ht. destruct default; [discriminate|].
    inversion Ht; subst t.
    destruct (scanstring_encode_basestring s rest) as (body & -> & Sb).
    simpl. now rewrite Sb.
Qed.

(** [json.loads(json.dumps(v))]. *)
Theorem loads_dumps default (v : pyval) (text : string) :
  keys_unique v = true ->
  dumps default v = Returns text ->
  loads text = Some (rendered v).
Proof.
  intros Hk Hd. unfold dumps in Hd.
  destruct (iterencode default v) as [t|] eqn:Et; [|discriminate].
  inversion Hd; subst text. unfold loads, lit.
  rewrite list_ascii_of_string_of_list_ascii.
  rewrite <- (app_nil_r t) at 2.
  rewrite (skip_ws_encoded _ _ _ _ Et).
  rewrite (scan_once_iterencode default v t Et Hk); [reflexivity | lia | reflexivity].
Qed.

(** With [default=str] the encoder accepts every value. *)
Lemma iterencode_total (v : pyval) :
  exists t, iterencode DefaultStr v = Returns t.
Proof.
  induction v as [|b|z|s|l IH|d IH|s] using pyval_nested_ind;
    try (eexists; reflexivity).
  - destruct b; eexists; reflexivity.
  - destruct l as [|x l]; [eexists; reflexivity|].
    inversion IH as [|? ? [tx Hx] Hl]; subst. simpl. rewrite Hx.
    assert (O : exists ts, list_others (iterencode DefaultStr) l = Returns ts).
    { clear -Hl. induction Hl as [|y l [ty Hy] _ [ts Hts]]; simpl.
      - eexists; reflexivity.
      - rewrite Hy, Hts. eexists; reflexivity. }
    destruct O as [ts ->]. eexists; reflexivity.
  - destruct d as [|[k x] d]; [eexists; reflexivity|].
    inversion IH as [|? ? [tx Hx] Hl]; subst. simpl in *. rewrite Hx.
    assert (O : exists ts, dict_others (iterencode DefaultStr) d = Returns ts).
    { clear -Hl. induction Hl as [|[k y] l [ty Hy] _ [ts Hts]]; simpl in *.
      - eexists; reflexivity.
      - rewrite Hy, Hts. eexists; reflexivity. }
    destruct O as [ts ->]. eexists; reflexivity.
Qed.

End JsonFacts.

(** * The guards and the request context *)

Lemma permission_denied_payload (msg : string) :
  exists text, is_denial text msg /\ text <> EmptyString.
Proof.
  unfold is_denial, permission_denied.
  destruct (Json.dumps Json.NoDefault (denial_object msg)) as [text|e] eqn:E.
  - exists text. repeat split.
    + exact E.
    + apply (JsonFacts.loads_dumps Json.NoDefault (denial_object msg) text);
        [reflexivity | exact E].
    + intros ->. discriminate E.
  - discriminate E.
Qed.

Lemma or_default_nonempty (x : option string) : or_default x <> EmptyString.
Proof.
  destruct x as [s|]; simpl; [|discriminate].
  destruct (String.eqb s EmptyString) eqn:E; [discriminate|].
  now apply String.eqb_neq in E.
Qed.

Section Guards.
Variables Service APIKeyManager : Type.
Implicit Types ctx : Context Service APIKeyManager.

Lemma require_root_cases ctx :
  (RequestContext.role (get_request_context ctx) = ROOT
   /\ _require_root ctx = Returns None)
  \/ (RequestContext.role (get_request_context ctx) <> ROOT
      /\ exists text, _require_root ctx = Returns (Some text)
                      /\ is_denial text "ROOT role required"
                      /\ text <> EmptyString).
Proof.
  unfold _require_root.
  destruct (RequestContext.role (get_request_context ctx)) eqn:R;
    [left; split; reflexivity | right | right];
    (split; [discriminate|]);
    destruct (permission_denied_payload "ROOT role required")
      as (text & D & N);
    exists text; simpl negb; cbv iota;
    rewrite (proj1 D); repeat split; try assumption; apply D.
Qed.

Lemma require_admin_or_root_cases ctx (account_id : string) :
  let request_ctx := get_request_context ctx in
  let authorized :=
    RequestContext.role request_ctx = ROOT
    \/ (RequestContext.role request_ctx = ADMIN
        /\ UserIdentifier.account (RequestContext.user request_ctx)
           = account_id) in
  (authorized /\ _require_admin_or_root ctx account_id = Returns None)
  \/ (~ authorized
      /\ exists text,
           _require_admin_or_root ctx account_id = Returns (Some text)
           /\ is_denial text "ROOT or account ADMIN role required"
           /\ text <> EmptyString).
Proof.
  intros request_ctx authorized. subst authorized.
  unfold _require_admin_or_root. fold request_ctx.
  destruct (permission_denied_payload "ROOT or account ADMIN role required")
    as (text & D & N).
  destruct (RequestContext.role request_ctx) eqn:R; simpl Role_eqb; cbv iota.
  - left. split; [now left | reflexivity].
  - simpl andb.
    destruct (String.eqb
                (UserIdentifier.account (RequestContext.user request_ctx))
                account_id) eqn:E.
    + apply String.eqb_eq in E. left. split; [now right | reflexivity].
    + apply String.eqb_neq in E. right. split.
      * intros [H|[_ H]]; [discriminate | contradiction].
      * exists text. rewrite (proj1 D). repeat split; try assumption; apply D.
  - right. split.
    + intros [H|[H _]]; discriminate.
    + exists text. simpl andb. cbv iota. rewrite (proj1 D).
      repeat split; try assumption; apply D.
Qed.

(** C1.  The admin-or-root guard returns no denial exactly when the role
    of the request context is ROOT, or it is ADMIN and the account of the
    user equals the given account; otherwise it returns the denial
    payload with code PERMISSION_DENIED and message "ROOT or account ADMIN
    role required".  In both cases it returns: it never raises. *)
Theorem require_admin_or_root_authorizes ctx (account_id : string) :
  let request_ctx := get_request_context ctx in
  (_require_admin_or_root ctx account_id = Returns None
   <-> RequestContext.role request_ctx = ROOT
       \/ (RequestContext.role request_ctx = ADMIN
           /\ UserIdentifier.account (RequestContext.user request_ctx)
              = account_id))
  /\ (_require_admin_or_root ctx account_id = Returns None
      \/ exists text,
           _require_admin_or_root ctx account_id = Returns (Some text)
           /\ is_denial text "ROOT or account ADMIN role required").
Proof.
  intros request_ctx.
  destruct (require_admin_or_root_cases ctx account_id)
    as [[A E]|[A (text & E & D & N)]]; fold request_ctx in A; split.
  - split; [intros _; exact A | intros _; exact E].
  - now left.
  - split; [rewrite E; discriminate | intros H; contradiction].
  - right. now exists text.
Qed.

(** C2.  The root guard returns no denial exactly when the role of the
    request context is ROOT; for every other role it returns the denial
    payload with code PERMISSION_DENIED and message "ROOT role required".
    In both cases it returns: it never raises. *)
Theorem require_root_authorizes ctx :
  (_require_root ctx = Returns None
   <-> RequestContext.role (get_request_context ctx) = ROOT)
  /\ (_require_root ctx = Returns None
      \/ exists text,
           _require_root ctx = Returns (Some text)
           /\ is_denial text "ROOT role required").
Proof.
  destruct (require_root_cases ctx) as [[A E]|[A (text & E & D & N)]]; split.
  - split; [intros _; exact A | intros _; exact E].
  - now left.
  - split; [rewrite E; discriminate | intros H; contradiction].
  - right. now exists text.
Qed.

(** C3.  With no identity in the session the request context is
    UserIdentifier("default", "default", "default") with Role ROOT,
    whatever the application context is. *)
Theorem get_request_context_anonymous
    (app : AppContext.t Service APIKeyManager) :
  get_request_context (mkContext (mkSession None) app)
  = RequestContext.make
      (UserIdentifier.make "default" "default" "default") ROOT.
Proof. reflexivity. Qed.

(** C4.  With an identity in the session, each of account, user and agent
    of the request context is the matching field of the identity, or the
    string "default" when that field is missing or empty; so each is a
    string that is not empty (a field of the context is a string, never
    null).  The Role is that of the identity. *)
Theorem get_request_context_identity
    (identity : ResolvedIdentity.t)
    (app : AppContext.t Service APIKeyManager) :
  let request_ctx :=
    get_request_context (mkContext (mkSession (Some identity)) app) in
  let substituted (field : option string) (result : string) :=
    ((field = None \/ field = Some EmptyString) /\ result = "default"%string)
    \/ (field = Some result /\ result <> EmptyString) in
  substituted (ResolvedIdentity.account_id identity)
    (UserIdentifier.account (RequestContext.user request_ctx))
  /\ substituted (ResolvedIdentity.user_id identity)
       (UserIdentifier.user (RequestContext.user request_ctx))
  /\ substituted (ResolvedIdentity.agent_id identity)
       (UserIdentifier.agent (RequestContext.user request_ctx))
  /\ UserIdentifier.account (RequestContext.user request_ctx) <> EmptyString
  /\ UserIdentifier.user (RequestContext.user request_ctx) <> EmptyString
  /\ UserIdentifier.agent (RequestContext.user request_ctx) <> EmptyString
  /\ RequestContext.role request_ctx = ResolvedIdentity.role identity.
Proof.
  intros request_ctx substituted.
  assert (S : forall x, substituted x (or_default x)).
  { intros [s|]; unfold substituted; simpl.
    - destruct (String.eqb s EmptyString) eqn:E.
      + apply String.eqb_eq in E. subst s. left. split; [now right | reflexivity].
      + apply String.eqb_neq in E. now right.
    - left. split; [now left | reflexivity]. }
  subst request_ctx. unfold get_request_context. simpl.
  repeat split; try apply S; apply or_default_nonempty.
Qed.

End Guards.


(** * The resolver, the admin tools and the lifespan *)

Section GatewayFacts.
Variables world Service APIKeyManager : Type.
Variable svc : ServiceAPI world Service.
Variable km : APIKeyManagerAPI world APIKeyManager.
Implicit Types ctx : Context Service APIKeyManager.
Implicit Types st : run_state world.

(** C5.  Without a key manager the resolver returns absent and calls
    nothing.  With one, a lookup that raises an error (any instance of
    Exception) makes the resolver return absent, and a lookup that returns
    is passed on.  Nothing that is an instance of Exception ever leaves the
    resolver. *)
Theorem resolve_identity_never_fails (token : string) st :
  resolve_identity km None token st = (Returns None, st)
  /\ (forall manager e w,
        km_resolve km manager token (ext st) = (Raises e, w) ->
        is_Exception e = true ->
        resolve_identity km (Some manager) token st
        = (Returns None,
           mkRun w (calls st ++ [api_key_manager_resolve token])))
  /\ (forall manager identity w,
        km_resolve km manager token (ext st) = (Returns identity, w) ->
        resolve_identity km (Some manager) token st
        = (Returns identity,
           mkRun w (calls st ++ [api_key_manager_resolve token])))
  /\ (forall api_key_manager e st',
        resolve_identity km api_key_manager token st = (Raises e, st') ->
        is_Exception e = false).
Proof.
  split; [reflexivity|]. split; [|split].
  - intros manager e w H He.
    unfold resolve_identity, try_except_Exception, invoke.
    rewrite H, He. reflexivity.
  - intros manager identity w H.
    unfold resolve_identity, try_except_Exception, invoke.
    rewrite H. reflexivity.
  - intros [manager|] e st'; [|discriminate].
    unfold resolve_identity, try_except_Exception, invoke, ret.
    destruct (km_resolve km manager token (ext st)) as [[r|e'] w].
    + discriminate.
    + destruct (is_Exception e') eqn:He; [discriminate|].
      intros H. inversion H; subst. exact He.
Qed.

Lemma return_if_truthy_text (text : string) (otherwise : M world string) :
  text <> EmptyString -> return_if_truthy (Some text) otherwise = ret text.
Proof.
  intros N. unfold return_if_truthy.
  destruct (String.eqb text EmptyString) eqn:E; [|reflexivity].
  now apply String.eqb_eq in E.
Qed.

(** A caller the guard denies gets the denial of the guard, and nothing
    outside is called. *)
Lemma call_tool_denied (tool : admin_tool) ctx st (text : string) :
  role_gate tool ctx = Returns (Some text) ->
  text <> EmptyString ->
  call_tool svc km tool ctx st = (Returns text, st).
Proof.
  intros G N.
  destruct tool; simpl in G; simpl call_tool;
    unfold admin_create_account, admin_list_accounts, admin_delete_account,
      admin_register_user, admin_list_users, admin_remove_user,
      admin_set_role, try_except_OpenVikingError, bind, lift;
    rewrite G, (return_if_truthy_text _ _ N); reflexivity.
Qed.

(** A caller the guard lets through, in a process without a key manager,
    gets the dev-mode denial, and nothing outside is called. *)
Lemma call_tool_dev_mode (tool : admin_tool) ctx st :
  role_gate tool ctx = Returns None ->
  AppContext.api_key_manager (get_app ctx) = None ->
  exists text,
    call_tool svc km tool ctx st = (Returns text, st)
    /\ is_denial text "Auth not configured (dev mode)".
Proof.
  intros G K.
  destruct (permission_denied_payload "Auth not configured (dev mode)")
    as (text & D & N).
  exists text. split; [|exact D].
  destruct tool; simpl in G; simpl call_tool;
    unfold admin_create_account, admin_list_accounts, admin_delete_account,
      admin_register_user, admin_list_users, admin_remove_user,
      admin_set_role, try_except_OpenVikingError, bind, lift;
    rewrite G; unfold return_if_truthy; rewrite K;
    unfold dev_mode_denial; rewrite (proj1 D); reflexivity.
Qed.

Lemma role_gate_cases (tool : admin_tool) ctx :
  role_gate tool ctx = Returns None
  \/ exists text msg,
       role_gate tool ctx = Returns (Some text)
       /\ is_denial text msg /\ text <> EmptyString
       /\ (msg = "ROOT role required"
           \/ msg = "ROOT or account ADMIN role required")%string.
Proof.
  destruct tool; simpl;
    try (destruct (require_root_cases _ _ ctx)
           as [[_ E]|[_ (text & E & D & N)]];
         [now left | right; exists text; eexists; eauto]);
    match goal with
    | |- context [_require_admin_or_root ctx ?a] =>
        destruct (require_admin_or_root_cases _ _ ctx a)
          as [[_ E]|[_ (text & E & D & N)]];
        [now left | right; exists text; eexists; eauto]
    end.
Qed.

Lemma denial_message_unique (text m1 m2 : string) :
  is_denial text m1 -> is_denial text m2 -> m1 = m2.
Proof.
  intros [_ L1] [_ L2]. rewrite L1 in L2. now inversion L2.
Qed.

(** C6.  In a process without a key manager (dev mode), every admin tool
    returns a denial payload without calling the service or the key
    manager: the world and the log of calls are as before.  For a caller
    that the role guard authorizes, the denial is the one with the
    message "Auth not configured (dev mode)". *)
Theorem admin_tools_dev_mode (tool : admin_tool) ctx st :
  AppContext.api_key_manager (get_app ctx) = None ->
  (exists text msg,
     call_tool svc km tool ctx st = (Returns text, st)
     /\ is_denial text msg)
  /\ (role_gate tool ctx = Returns None ->
      exists text,
        call_tool svc km tool ctx st = (Returns text, st)
        /\ is_denial text "Auth not configured (dev mode)").
Proof.
  intros K. split.
  - destruct (role_gate_cases tool ctx) as [G|(text & msg & G & D & N & _)].
    + destruct (call_tool_dev_mode tool ctx st G K) as (text & E & D).
      now exists text, "Auth not configured (dev mode)"%string.
    + exists text, msg. split; [now apply call_tool_denied | exact D].
  - intros G. now apply call_tool_dev_mode.
Qed.

(** C10.  In every admin tool the role guard comes first: either it
    authorizes the caller, or the tool returns the denial of the guard
    ("ROOT role required" or "ROOT or account ADMIN role required"), with
    or without a key manager, and nothing outside is called; so a tool
    that returns the denial "Auth not configured (dev mode)" was called by
    a caller that the guard authorized. *)
Theorem admin_tools_role_gate_first (tool : admin_tool) ctx st :
  (role_gate tool ctx = Returns None
   \/ exists text,
        role_gate tool ctx = Returns (Some text)
        /\ call_tool svc km tool ctx st = (Returns text, st)
        /\ (is_denial text "ROOT role required"
            \/ is_denial text "ROOT or account ADMIN role required"))
  /\ (forall text st',
        call_tool svc km tool ctx st = (Returns text, st') ->
        is_denial text "Auth not configured (dev mode)" ->
        role_gate tool ctx = Returns None).
Proof.
  destruct (role_gate_cases tool ctx)
    as [G|(text & msg & G & D & N & Hm)]; split.
  - now left.
  - intros _ _ _ _. exact G.
  - right. exists text. split; [exact G|].
    split; [now apply call_tool_denied|].
    destruct Hm; subst msg; [now left | now right].
  - intros text' st' H D'.
    rewrite (call_tool_denied tool ctx st text G N) in H.
    inversion H; subst text' st'.
    pose proof (denial_message_unique _ _ _ D D') as E.
    destruct Hm; subst msg; discriminate.
Qed.

(** The startup of [app_lifespan], written out: the calls made before the
    context is handed out. *)
Lemma app_lifespan_startup (_server_config : option MCPServerConfig)
    (A : Type) (serve : AppContext.t Service APIKeyManager -> M world A) st :
  app_lifespan svc km _server_config serve st
  = (service <~ invoke OpenVikingService_new (svc_new svc) ;;
     _ <~ invoke service_initialize (svc_initialize svc service) ;;
     api_key_manager <~
       (if truthy (root_api_key (effective_config _server_config)) then
          manager <~
            invoke (APIKeyManager_new
                      (root_api_key (effective_config _server_config))
                      (svc_agfs_url svc service))
              (km_new km (root_api_key (effective_config _server_config))
                 (svc_agfs_url svc service)) ;;
          _ <~ invoke api_key_manager_load (km_load km manager) ;;
          ret (Some manager)
        else ret None) ;;
     try_finally
       (serve (AppContext.make service api_key_manager))
       (invoke service_close (svc_close svc service))) st.
Proof. reflexivity. Qed.

(** C7, amended.  When the construction and the initialisation of the
    service return and, for a root key that counts as true, so do the
    construction and the loading of the key manager, [app_lifespan]
    constructs one [AppContext].  It holds the service constructed, and a
    key manager exactly when the root key of the configuration counts as
    true (a string: when it is not empty), namely the one constructed from
    that key and the storage location of the service; without such a key
    startup makes no call to the key manager.  Whatever is served
    afterwards (any code, any number of calls, whatever it does to the
    world) runs with this one context, and its service is closed after it.
    A key manager present means that a root credential is configured; a
    credential configured as the empty string gives none.  In every case,
    also when a startup call raises, the lifespan either raises at startup
    whatever would be served, or serves with one context of this kind. *)
Theorem app_lifespan_key_manager_iff
    (_server_config : option MCPServerConfig) st :
  let config := effective_config _server_config in
  let key := root_api_key config in
  (forall (service : Service) (w1 w2 : world),
     svc_new svc (ext st) = (Returns service, w1) ->
     svc_initialize svc service w1 = (Returns tt, w2) ->
     (truthy key = true ->
      exists manager w3 w4,
        km_new km key (svc_agfs_url svc service) w2 = (Returns manager, w3)
        /\ km_load km manager w3 = (Returns tt, w4)) ->
     exists app st1,
       AppContext.service app = service
       /\ (AppContext.api_key_manager app <> None <-> truthy key = true)
       /\ (forall manager,
             AppContext.api_key_manager app = Some manager ->
             exists w3,
               km_new km key (svc_agfs_url svc service) w2
               = (Returns manager, w3))
       /\ calls st1
          = calls st
              ++ OpenVikingService_new :: service_initialize
                 :: (if truthy key
                     then [APIKeyManager_new key (svc_agfs_url svc service);
                           api_key_manager_load]
                     else [])
       /\ forall (A : Type)
                 (serve : AppContext.t Service APIKeyManager -> M world A),
            app_lifespan svc km _server_config serve st
            = try_finally (serve app)
                (invoke service_close (svc_close svc service)) st1)
  /\ (truthy key = true -> root_credential_configured config)
  /\ (forall s, key = PStr s -> (truthy key = true <-> s <> EmptyString))
  /\ ((exists e st',
         forall (A : Type)
                (serve : AppContext.t Service APIKeyManager -> M world A),
           app_lifespan svc km _server_config serve st = (Raises e, st'))
      \/ (exists app st1,
            (AppContext.api_key_manager app <> None <-> truthy key = true)
            /\ forall (A : Type)
                      (serve : AppContext.t Service APIKeyManager
                               -> M world A),
                 app_lifespan svc km _server_config serve st
                 = try_finally (serve app)
                     (invoke service_close
                        (svc_close svc (AppContext.service app))) st1)).
Proof.
  intros config key. split; [|split; [|split]].
  - intros service w1 w2 E1 E2 K.
    destruct (truthy key) eqn:T.
    + destruct (K eq_refl) as (manager & w3 & w4 & E3 & E4).
      exists (AppContext.make service (Some manager)).
      exists (mkRun w4
                ((((calls st ++ [OpenVikingService_new])
                   ++ [service_initialize])
                  ++ [APIKeyManager_new key (svc_agfs_url svc service)])
                 ++ [api_key_manager_load])).
      split; [|split; [|split; [|split]]].
      * reflexivity.
      * simpl. split; [reflexivity | discriminate].
      * simpl. intros m M. inversion M; subst m. now exists w3.
      * cbn [calls]. rewrite <- !app_assoc. reflexivity.
      * intros A serve. rewrite app_lifespan_startup. fold config key.
        unfold bind, invoke.
        rewrite E1; cbn [ext calls]; rewrite E2; cbn [ext calls].
        rewrite T; cbv beta iota; cbn [ext calls].
        rewrite E3; cbn [ext calls]; rewrite E4. reflexivity.
    + exists (AppContext.make service None).
      exists (mkRun w2
                ((calls st ++ [OpenVikingService_new])
                 ++ [service_initialize])).
      split; [|split; [|split; [|split]]].
      * reflexivity.
      * simpl. split; [congruence | discriminate].
      * simpl. discriminate.
      * cbn [calls]. rewrite <- !app_assoc. reflexivity.
      * intros A serve. rewrite app_lifespan_startup. fold config key.
        unfold bind, invoke, ret.
        rewrite E1; cbn [ext calls]; rewrite E2; cbn [ext calls].
        rewrite T. reflexivity.
  - unfold root_credential_configured. intros T N. fold key in N.
    rewrite N in T. discriminate.
  - intros s E. rewrite E. destruct s; simpl; split; congruence.
  - destruct (svc_new svc (ext st)) as [[service|e] w1] eqn:E1;
      [|left; exists e; eexists; intros A serve;
         rewrite app_lifespan_startup;
         unfold bind, invoke; rewrite E1; reflexivity].
    destruct (svc_initialize svc service w1) as [[[]|e] w2] eqn:E2;
      [|left; exists e; eexists; intros A serve;
         rewrite app_lifespan_startup;
         unfold bind, invoke; rewrite E1; simpl; rewrite E2; reflexivity].
    destruct (truthy key) eqn:T.
    + destruct (km_new km key (svc_agfs_url svc service) w2)
        as [[manager|e] w3] eqn:E3;
        [|left; exists e; eexists; intros A serve;
           rewrite app_lifespan_startup; fold config key;
           unfold bind, invoke; rewrite E1; simpl; rewrite E2; simpl;
           rewrite T; simpl; rewrite E3; reflexivity].
      destruct (km_load km manager w3) as [[[]|e] w4] eqn:E4;
        [|left; exists e; eexists; intros A serve;
           rewrite app_lifespan_startup; fold config key;
           unfold bind, invoke; rewrite E1; simpl; rewrite E2; simpl;
           rewrite T; simpl; rewrite E3; simpl; rewrite E4; reflexivity].
      right. exists (AppContext.make service (Some manager)). eexists. split.
      * simpl. split; [reflexivity | discriminate].
      * intros A serve. rewrite app_lifespan_startup. fold config key.
        unfold bind, invoke.
        rewrite E1; simpl; rewrite E2; simpl; rewrite T; simpl; rewrite E3; simpl;
          rewrite E4.
        reflexivity.
    + right. exists (AppContext.make service None). eexists. split.
      * simpl. split; [congruence | discriminate].
      * intros A serve. rewrite app_lifespan_startup. fold config key.
        unfold bind, invoke, ret.
        rewrite E1; simpl; rewrite E2; simpl; rewrite T. reflexivity.
Qed.

End GatewayFacts.

Lemma app_lifespan_key_manager_iff_witness :
  exists app st1,
    AppContext.service app = tt
    /\ (AppContext.api_key_manager app <> None
        <-> truthy (PStr "secret") = true)
    /\ (forall manager,
          AppContext.api_key_manager app = Some manager ->
          exists w3,
            km_new Demo.km (PStr "secret") (svc_agfs_url Demo.svc tt) []
            = (Returns manager, w3))
    /\ calls st1
       = [OpenVikingService_new; service_initialize;
          APIKeyManager_new (PStr "secret") (svc_agfs_url Demo.svc tt);
          api_key_manager_load]
    /\ forall (A : Type) (serve : AppContext.t unit unit -> M Demo.world A),
         app_lifespan Demo.svc Demo.km (Some secret_config) serve Demo.start
         = try_finally (serve app)
             (invoke service_close (svc_close Demo.svc tt)) st1.
Proof.
  apply (proj1 (app_lifespan_key_manager_iff Demo.world unit unit
                  Demo.svc Demo.km (Some secret_config) Demo.start)
           tt [] [] eq_refl eq_refl).
  intros _. exists tt, [], []. split; reflexivity.
Defined.

(** C7 as stated fails: the document [{"server": {"root_api_key": ""}}]
    configures a root key, the empty string, and the context that
    [app_lifespan] then constructs and serves with has no key manager. *)
Lemma app_lifespan_empty_root_key :
  from_ov_conf (one_file "ov.conf" empty_key_document) "ov.conf"
  = Returns empty_key_config
  /\ root_credential_configured empty_key_config
  /\ (forall (A : Type) (serve : AppContext.t unit unit -> M Demo.world A),
        app_lifespan Demo.svc Demo.km (Some empty_key_config) serve
          Demo.start
        = try_finally (serve (AppContext.make tt None))
            (invoke service_close (svc_close Demo.svc tt))
            (mkRun [] [OpenVikingService_new; service_initialize]))
  /\ ~ (AppContext.api_key_manager (AppContext.make tt (@None unit)) <> None
        <-> root_credential_configured empty_key_config).
Proof.
  split; [reflexivity|]. split; [discriminate|]. split; [reflexivity|].
  intros [_ H]. apply H; [discriminate | reflexivity].
Qed.

Lemma resolve_identity_never_fails_witness :
  resolve_identity Demo.km (Some tt) "no-such-key" Demo.start
  = (Returns None, mkRun [] [api_key_manager_resolve "no-such-key"]).
Proof.
  apply (proj1 (proj2 (resolve_identity_never_fails
                         Demo.world unit Demo.km
                         "no-such-key" Demo.start))
           tt (OtherException "UnauthenticatedError" "Invalid API Key") []);
    reflexivity.
Defined.

Lemma admin_tools_dev_mode_witness :
  exists text,
    call_tool Demo.svc Demo.km
      (Admin_create_account "acme" "alice") Demo.dev_ctx Demo.start
    = (Returns text, Demo.start)
    /\ is_denial text "Auth not configured (dev mode)".
Proof.
  apply (proj2 (admin_tools_dev_mode
                  Demo.world unit unit Demo.svc Demo.km
                  (Admin_create_account "acme" "alice")
                  Demo.dev_ctx Demo.start eq_refl)).
  reflexivity.
Defined.

Lemma admin_tools_role_gate_first_witness :
  role_gate (Admin_create_account "acme" "alice") Demo.dev_ctx
  = Returns None.
Proof.
  apply (proj2 (admin_tools_role_gate_first
                  Demo.world unit unit Demo.svc Demo.km
                  (Admin_create_account "acme" "alice")
                  Demo.dev_ctx Demo.start)
           Demo.dev_mode Demo.start).
  - reflexivity.
  - split; reflexivity.
Defined.


(** * The configuration merge *)

Lemma member_section (d : list (string * pyval)) (section : string) :
  is_section (lookup section d) = true ->
  exists s,
    dict_get (PDict d) section (PDict []) = Returns (PDict s)
    /\ forall key, member (PDict d) section key = lookup key s.
Proof.
  unfold dict_get, member. simpl.
  destruct (lookup section d) as [[| | | | |s|]|]; try discriminate; intros _.
  - now exists s.
  - now exists [].
Qed.

Lemma merge_sections_key_merge (data : pyval) :
  config_document data = true ->
  merge_sections data = Returns (key_merge data).
Proof.
  destruct data as [| | | | |d|]; try discriminate. simpl config_document.
  intros H. apply andb_true_iff in H. destruct H as [Hs Hm].
  destruct (member_section d "server" Hs) as (s & Es & Ms).
  destruct (member_section d "mcp_server" Hm) as (m & Em & Mm).
  unfold merge_sections, key_merge.
  rewrite Es, Em, !Ms, !Mm. reflexivity.
Qed.

Lemma coalesce_present (a : option pyval) (b : pyval) :
  not_null a = true -> coalesce a b = present_or a b.
Proof. destruct a as [[]|]; simpl; intros; congruence. Qed.

Lemma key_merge_spec_merge (data : pyval) :
  no_null_member data = true -> key_merge data = spec_merge data.
Proof.
  unfold no_null_member. simpl forallb. rewrite !andb_true_iff.
  intros (H1 & H2 & H3 & H4 & H5 & H6 & H7 & _). simpl in *.
  unfold key_merge, spec_merge.
  rewrite !coalesce_present by assumption. reflexivity.
Qed.

(** C8 as stated fails: with an explicit null for [mcp_server.host] the
    code keeps the null, where the merge rule with [??] gives the host of
    the [server] section. *)
Lemma from_ov_conf_null_not_coalesced :
  config_document null_host_document = true
  /\ from_ov_conf (one_file "ov.conf" null_host_document) "ov.conf"
     = Returns {| host := PNone; port := PInt 2033; root_api_key := PNone;
                  cors_origins := PList [PStr "*"] |}
  /\ host (spec_merge null_host_document) = PStr "A"
  /\ from_ov_conf (one_file "ov.conf" null_host_document) "ov.conf"
     <> Returns (spec_merge null_host_document).
Proof. repeat split. discriminate. Qed.

(** C8, amended.  When there is no file at the path the defaults are
    returned.  For a configuration document, each of host, root_api_key
    and cors_origins is the value under that key of [mcp_server] when the
    key is present there (even with the value null), else the value under
    that key of [server] when present there, else the default ("0.0.0.0",
    null, ["*"]); port is the value under the key of [mcp_server] when
    present, else 2033, and never that of [server].  When no member read is
    an explicit null this is the merge rule written with [??]. *)
Theorem from_ov_conf_merge (files : string -> option pyval)
    (config_path : string) :
  (files config_path = None ->
   from_ov_conf files config_path = Returns MCPServerConfig_default)
  /\ (forall data,
        files config_path = Some data ->
        config_document data = true ->
        from_ov_conf files config_path = Returns (key_merge data)
        /\ (member data "mcp_server" "port" = None ->
            port (key_merge data) = PInt 2033)
        /\ (no_null_member data = true ->
            from_ov_conf files config_path = Returns (spec_merge data))).
Proof.
  unfold from_ov_conf. split.
  - intros ->. reflexivity.
  - intros data -> H. split; [now apply merge_sections_key_merge|]. split.
    + intros P. simpl. now rewrite P.
    + intros N. rewrite <- (key_merge_spec_merge data N).
      now apply merge_sections_key_merge.
Qed.

Lemma from_ov_conf_merge_witness :
  from_ov_conf (fun _ => None) "ov.conf" = Returns MCPServerConfig_default
  /\ from_ov_conf (one_file "ov.conf" example_document) "ov.conf"
     = Returns {| host := PStr "B"; port := PInt 9000; root_api_key := PNone;
                  cors_origins := PList [PStr "*"] |}
  /\ from_ov_conf (one_file "ov.conf" server_only_document) "ov.conf"
     = Returns {| host := PStr "A"; port := PInt 2033; root_api_key := PNone;
                  cors_origins := PList [PStr "*"] |}
  /\ port (key_merge server_only_document) = PInt 2033.
Proof.
  split; [|split; [|split]].
  - apply (proj1 (from_ov_conf_merge (fun _ => None) "ov.conf")).
    reflexivity.
  - apply (proj2 (proj2
             (proj2 (from_ov_conf_merge
                       (one_file "ov.conf" example_document) "ov.conf")
                example_document eq_refl eq_refl))).
    reflexivity.
  - apply (proj1
             (proj2 (from_ov_conf_merge
                       (one_file "ov.conf" server_only_document) "ov.conf")
                server_only_document eq_refl eq_refl)).
  - apply (proj1 (proj2
             (proj2 (from_ov_conf_merge
                       (one_file "ov.conf" server_only_document) "ov.conf")
                server_only_document eq_refl eq_refl))).
    reflexivity.
Defined.

(** * The error envelope *)

(** C9.  The envelope of a domain error is a JSON text that parses back to
    the object with the keys error (true), code, message and details, in
    which a detail value of a type unknown to JSON shows as its display
    string; the denial payload is a JSON text that parses back to the
    object with the keys error (true), code ("PERMISSION_DENIED") and
    message, and no details.  Neither formatter raises. *)
Theorem format_error_parses_back (e : OpenVikingError) (msg : string) :
  keys_unique (details e) = true ->
  (exists text,
     format_error e = Returns text
     /\ Json.loads text = Some (error_object e))
  /\ (exists text,
        permission_denied msg = Returns text
        /\ Json.loads text
           = Some (PDict [("error", PBool true);
                          ("code", PStr "PERMISSION_DENIED");
                          ("message", PStr msg)]%string)).
Proof.
  intros K. split.
  - unfold format_error, Json.dumps.
    destruct (JsonFacts.iterencode_total
                (PDict [("error", PBool true); ("code", PStr (code e));
                        ("message", PStr (message e));
                        ("details", details e)]%string)) as [t Ht].
    rewrite Ht. eexists. split; [reflexivity|].
    apply (JsonFacts.loads_dumps Json.DefaultStr
             (PDict [("error", PBool true); ("code", PStr (code e));
                     ("message", PStr (message e));
                     ("details", details e)]%string)).
    + simpl. now rewrite K.
    + unfold Json.dumps. now rewrite Ht.
  - destruct (permission_denied_payload msg) as (text & [E L] & _).
    now exists text.
Qed.

Lemma format_error_parses_back_witness :
  exists text,
    format_error
      (mkOpenVikingError "X" "Y"
         (PDict [("retry", PInt 3); ("cause", PObj "timeout")]%string))
    = Returns text
    /\ Json.loads text
       = Some (PDict [("error", PBool true); ("code", PStr "X");
                      ("message", PStr "Y");
                      ("details",
                        PDict [("retry", PInt 3);
                               ("cause", PStr "timeout")])]%string).
Proof.
  apply (proj1 (format_error_parses_back
                  (mkOpenVikingError "X" "Y"
                     (PDict [("retry", PInt 3);
                             ("cause", PObj "timeout")]%string))
                  "denied" eq_refl)).
Defined.

(** * Runs of the code on the small instance *)

(** The envelope of an error with empty details parses back to the object
    with empty details. *)
Example format_error_empty_details :
  match format_error (mkOpenVikingError "X" "Y" (PDict [])) with
  | Returns text => Json.loads text
  | Raises _ => None
  end
  = Some (PDict [("error", PBool true); ("code", PStr "X");
                 ("message", PStr "Y"); ("details", PDict [])]).
Proof. vm_compute. reflexivity. Qed.

(** An ADMIN of account "acme" is let through for "acme" and denied for
    another account. *)
Example admin_of_acme_registers_users :
  let ctx :=
    mkContext
      (mkSession
         (Some (ResolvedIdentity.make ADMIN (Some "acme") (Some "ann") None)))
      (AppContext.make tt (Some tt)) in
  _require_admin_or_root ctx "acme" = Returns None
  /\ _require_admin_or_root ctx "other" <> Returns None
  /\ _require_root ctx = Returns (Some Demo.root_required).
Proof. vm_compute. repeat split. discriminate. Qed.

(** With a key manager, account creation by ROOT calls the key manager and
    then the service, in this order. *)
Example root_creates_account :
  let ctx :=
    mkContext
      (mkSession
         (Some (ResolvedIdentity.make ROOT None None None)))
      (AppContext.make tt (Some tt)) in
  snd (call_tool Demo.svc Demo.km
         (Admin_create_account "acme" "alice") ctx Demo.start)
  = mkRun ["acme"]
      [api_key_manager_create_account "acme" "alice";
       service_initialize_account_directories (get_request_context ctx)].
Proof. reflexivity. Qed.

(** Startup with a root key builds and loads the key manager; at the end
    the service is closed. *)
Example lifespan_with_root_key :
  app_lifespan Demo.svc Demo.km
    (Some {| host := PStr "0.0.0.0"; port := PInt 2033;
             root_api_key := PStr "secret";
             cors_origins := PList [PStr "*"] |})
    (fun app => ret (AppContext.api_key_manager app)) Demo.start
  = (Returns (Some tt),
     mkRun []
       [OpenVikingService_new; service_initialize;
        APIKeyManager_new (PStr "secret") (PStr "http://localhost:1833");
        api_key_manager_load; service_close]).
Proof. reflexivity. Qed.

(** Startup with an empty root key is dev mode. *)
Example lifespan_with_empty_root_key :
  app_lifespan Demo.svc Demo.km
    (Some {| host := PStr "0.0.0.0"; port := PInt 2033;
             root_api_key := PStr EmptyString;
             cors_origins := PList [PStr "*"] |})
    (fun app => ret (AppContext.api_key_manager app)) Demo.start
  = (Returns None,
     mkRun [] [OpenVikingService_new; service_initialize; service_close]).
Proof. reflexivity. Qed.

(** A plain user who lists the accounts, in a process without a key
    manager, is told that the ROOT role is required. *)
Example user_lists_accounts :
  call_tool Demo.svc Demo.km Admin_list_accounts Demo.user_ctx Demo.start
  = (Returns Demo.root_required, Demo.start)
  /\ is_denial Demo.root_required "ROOT role required".
Proof. repeat split. Qed.

(** * Further properties of the code *)


(** * Further properties: the admin tools *)

Lemma format_error_returns (e : OpenVikingError) :
  exists text, format_error e = Returns text.
Proof.
  unfold format_error, Json.dumps.
  destruct (JsonFacts.iterencode_total
              (PDict [("error", PBool true); ("code", PStr (code e));
                      ("message", PStr (message e));
                      ("details", details e)])) as [t ->].
  eexists; reflexivity.
Qed.

(** The handler of every tool turns a domain error into a returned text. *)
Lemma handler_absorbs {world} (body : M world string) (st : run_state world) :
  forall e st',
    try_except_OpenVikingError body (fun e => lift (format_error e)) st
    <> (Raises (OVError e), st').
Proof.
  intros e st'. unfold try_except_OpenVikingError, lift.
  destruct (body st) as [[text|[d| | | |]] st1]; try discriminate.
  destruct (format_error_returns d) as [text ->]. discriminate.
Qed.

Section AdminFacts.
Variables world Service APIKeyManager : Type.
Variable svc : ServiceAPI world Service.
Variable km : APIKeyManagerAPI world APIKeyManager.
Implicit Types ctx : Context Service APIKeyManager.
Implicit Types st : run_state world.

(** X1.  No admin tool ever raises a domain error: whatever the service
    and the key manager do, an OpenVikingError does not leave the tool. *)
Theorem admin_tools_absorb_domain_errors (tool : admin_tool) ctx st :
  forall e st', call_tool svc km tool ctx st <> (Raises (OVError e), st').
Proof.
  destruct tool; simpl call_tool; apply handler_absorbs.
Qed.

Lemma call_tool_manager (tool : admin_tool) ctx st
    (manager : APIKeyManager) :
  role_gate tool ctx = Returns None ->
  AppContext.api_key_manager (get_app ctx) = Some manager ->
  forall e w,
    manager_effect km tool manager (ext st) = (Raises e, w) ->
    call_tool svc km tool ctx st
    = try_except_OpenVikingError (fun s => (Raises e, s))
        (fun e => lift (format_error e))
        (mkRun w (calls st ++ [manager_call tool])).
Proof.
  intros G K e w H.
  destruct tool; simpl in G, H; simpl call_tool; simpl manager_call;
    unfold admin_create_account, admin_list_accounts, admin_delete_account,
      admin_register_user, admin_list_users, admin_remove_user,
      admin_set_role, try_except_OpenVikingError, bind, lift, invoke;
    rewrite G; unfold return_if_truthy; rewrite K;
    match type of H with
    | (let (_, _) := ?c in _) = _ =>
        destruct c as [[r|e'] w'] eqn:E; simpl in H; inversion H; subst
    end; reflexivity.
Qed.

(** X2.  When the key-manager call of an admin tool raises, the tool
    ends there: a domain error comes back as its envelope, any other
    exception is raised to the caller, and in both cases the log holds
    this one call and nothing after it. *)
Theorem admin_tool_manager_failure (tool : admin_tool) ctx st
    (manager : APIKeyManager) (e : exn) (w : world) :
  role_gate tool ctx = Returns None ->
  AppContext.api_key_manager (get_app ctx) = Some manager ->
  manager_effect km tool manager (ext st) = (Raises e, w) ->
  let st' := mkRun w (calls st ++ [manager_call tool]) in
  match e with
  | OVError d =>
      exists text,
        format_error d = Returns text
        /\ call_tool svc km tool ctx st = (Returns text, st')
  | _ => call_tool svc km tool ctx st = (Raises e, st')
  end.
Proof.
  intros G K H st'.
  rewrite (call_tool_manager tool ctx st manager G K e w H).
  unfold try_except_OpenVikingError, lift. fold st'.
  destruct e as [d| | | |]; try reflexivity.
  destruct (format_error_returns d) as [text E].
  exists text. now rewrite E.
Qed.


(** X3.  Account creation does not roll back: when the key manager has
    created the account and the directory initialisation of the service
    then fails with a domain error, the tool returns the envelope of that
    error, the world is the one the two calls left, and the log holds
    these two calls only (no call that deletes the account). *)
Theorem admin_create_account_no_rollback
    (account_id admin_user_id : string) ctx st
    (manager : APIKeyManager) (user_key : pyval) (w1 w2 : world)
    (d : OpenVikingError) :
  _require_root ctx = Returns None ->
  AppContext.api_key_manager (get_app ctx) = Some manager ->
  km_create_account km manager account_id admin_user_id (ext st)
  = (Returns user_key, w1) ->
  svc_initialize_account_directories svc (AppContext.service (get_app ctx))
    (get_request_context ctx) w1
  = (Raises (OVError d), w2) ->
  exists text,
    format_error d = Returns text
    /\ admin_create_account svc km account_id admin_user_id ctx st
       = (Returns text,
          mkRun w2
            (calls st
               ++ [api_key_manager_create_account account_id admin_user_id;
                   service_initialize_account_directories
                     (get_request_context ctx)])).
Proof.
  intros G K H1 H2.
  destruct (format_error_returns d) as [text E]. exists text.
  split; [exact E|].
  unfold admin_create_account, try_except_OpenVikingError, bind, lift, invoke.
  rewrite G. unfold return_if_truthy. rewrite K, H1. simpl.
  rewrite H2, E, <- app_assoc. reflexivity.
Qed.

(** X4.  The way through account creation: for a caller that the root
    guard authorizes, with a key manager whose call returns the key and a
    service whose call returns, the tool calls the key manager first and
    the service second, and returns a JSON text that parses back to the
    object with the account, the admin user and the key issued. *)
Theorem admin_create_account_issues_key
    (account_id admin_user_id : string) ctx st
    (manager : APIKeyManager) (key : string) (w1 w2 : world) :
  _require_root ctx = Returns None ->
  AppContext.api_key_manager (get_app ctx) = Some manager ->
  km_create_account km manager account_id admin_user_id (ext st)
  = (Returns (PStr key), w1) ->
  svc_initialize_account_directories svc (AppContext.service (get_app ctx))
    (get_request_context ctx) w1
  = (Returns tt, w2) ->
  exists text,
    admin_create_account svc km account_id admin_user_id ctx st
    = (Returns text,
       mkRun w2
         (calls st
            ++ [api_key_manager_create_account account_id admin_user_id;
                service_initialize_account_directories
                  (get_request_context ctx)]))
    /\ Json.loads text
       = Some (PDict [("account_id", PStr account_id);
                      ("admin_user_id", PStr admin_user_id);
                      ("user_key", PStr key)]).
Proof.
  intros G K H1 H2.
  set (o := PDict [("account_id", PStr account_id);
                   ("admin_user_id", PStr admin_user_id);
                   ("user_key", PStr key)]).
  destruct (Json.dumps Json.NoDefault o) as [text|e] eqn:E;
    [|discriminate E].
  exists text. split.
  - unfold admin_create_account, try_except_OpenVikingError, bind, lift,
      invoke.
    rewrite G. unfold return_if_truthy. rewrite K, H1. simpl.
    rewrite H2. fold o. rewrite E, <- app_assoc. reflexivity.
  - apply (JsonFacts.loads_dumps Json.NoDefault o text);
      [reflexivity | exact E].
Qed.

(** X5.  A session without identity is ROOT also in a process that has a
    key manager: every admin tool passes its guard and calls the key
    manager, whose call is the next entry of the log. *)
Theorem anonymous_session_reaches_key_manager (tool : admin_tool)
    (service : Service) (manager : APIKeyManager) st :
  let ctx :=
    mkContext (mkSession None) (AppContext.make service (Some manager)) in
  role_gate tool ctx = Returns None
  /\ exists more,
       calls (snd (call_tool svc km tool ctx st))
       = calls st ++ manager_call tool :: more.
Proof.
  intros ctx. split; [destruct tool; reflexivity|].
  destruct tool; simpl call_tool; simpl manager_call;
    unfold admin_create_account, admin_list_accounts, admin_delete_account,
      admin_register_user, admin_list_users, admin_remove_user,
      admin_set_role, try_except_OpenVikingError, bind, lift, invoke;
    simpl;
    match goal with
    | |- context [?f km manager ?a ?b ?c (ext st)] =>
        destruct (f km manager a b c (ext st)) as [[r|[d| | | |]] w1]
    | |- context [?f km manager ?a ?b (ext st)] =>
        destruct (f km manager a b (ext st)) as [[r|[d| | | |]] w1]
    | |- context [?f km manager ?a (ext st)] =>
        destruct (f km manager a (ext st)) as [[r|[d| | | |]] w1]
    | |- context [?f km manager (ext st)] =>
        destruct (f km manager (ext st)) as [[r|[d| | | |]] w1]
    end; simpl;
    try (destruct (format_error d) as [t|x]; simpl);
    try (match goal with
         | |- context [svc_initialize_account_directories svc ?s ?c ?w] =>
             destruct (svc_initialize_account_directories svc s c w)
               as [[[]|[d'| | | |]] w2]
         | |- context [svc_initialize_user_directories svc ?s ?c ?w] =>
             destruct (svc_initialize_user_directories svc s c w)
               as [[[]|[d'| | | |]] w2]
         end; simpl);
    try (destruct (format_error d') as [t'|x']; simpl);
    try (match goal with
         | |- context [Json.dumps ?h ?v] =>
             destruct (Json.dumps h v) as [t''|[d''| | | |]]; simpl
         end);
    try (destruct (format_error d'') as [t3|x3]; simpl);
    rewrite <- ?app_assoc; simpl; eexists; reflexivity.
Qed.

(** X6.  In dev mode proper, a session without identity in a process
    without key manager, every admin tool returns the denial
    "Auth not configured (dev mode)" and calls nothing. *)
Theorem anonymous_dev_mode_denied (tool : admin_tool) (service : Service) st :
  let ctx := mkContext (mkSession None) (AppContext.make service None) in
  exists text,
    call_tool svc km tool ctx st = (Returns text, st)
    /\ is_denial text "Auth not configured (dev mode)".
Proof.
  intros ctx. apply call_tool_dev_mode; [destruct tool|]; reflexivity.
Qed.

End AdminFacts.

Lemma admin_tools_absorb_domain_errors_witness :
  call_tool Demo.svc Demo2.km (Admin_create_account "acme" "alice")
    Demo2.root_ctx Demo.start
  <> (Raises (OVError Demo2.conflict), Demo.start).
Proof.
  apply (admin_tools_absorb_domain_errors Demo.world unit unit Demo.svc
           Demo2.km (Admin_create_account "acme" "alice") Demo2.root_ctx
           Demo.start Demo2.conflict Demo.start).
Defined.

Lemma admin_tool_manager_failure_witness :
  exists text,
    format_error Demo2.conflict = Returns text
    /\ call_tool Demo.svc Demo2.km (Admin_create_account "acme" "alice")
         Demo2.root_ctx Demo.start
       = (Returns text,
          mkRun [] [api_key_manager_create_account "acme" "alice"]).
Proof.
  apply (admin_tool_manager_failure Demo.world unit unit Demo.svc Demo2.km
           (Admin_create_account "acme" "alice") Demo2.root_ctx Demo.start
           tt (OVError Demo2.conflict) []); reflexivity.
Defined.

Lemma admin_create_account_no_rollback_witness :
  exists text,
    format_error Demo2.failure = Returns text
    /\ admin_create_account Demo2.svc Demo.km "acme" "alice"
         Demo2.root_ctx Demo.start
       = (Returns text,
          mkRun ["acme"]
            [api_key_manager_create_account "acme" "alice";
             service_initialize_account_directories
               (get_request_context Demo2.root_ctx)]).
Proof.
  apply (admin_create_account_no_rollback Demo.world unit unit
           Demo2.svc Demo.km "acme" "alice" Demo2.root_ctx Demo.start
           tt (PStr "key") ["acme"] ["acme"] Demo2.failure); reflexivity.
Defined.

Lemma admin_create_account_issues_key_witness :
  exists text,
    admin_create_account Demo.svc Demo.km "acme" "alice"
      Demo2.root_ctx Demo.start
    = (Returns text,
       mkRun ["acme"]
         [api_key_manager_create_account "acme" "alice";
          service_initialize_account_directories
            (get_request_context Demo2.root_ctx)])
    /\ Json.loads text
       = Some (PDict [("account_id", PStr "acme");
                      ("admin_user_id", PStr "alice");
                      ("user_key", PStr "key")]).
Proof.
  apply (admin_create_account_issues_key Demo.world unit unit
           Demo.svc Demo.km "acme" "alice" Demo2.root_ctx Demo.start
           tt "key" ["acme"] ["acme"]); reflexivity.
Defined.


(** * Further properties: the guards, the resolver, the lifespan *)

Section GuardFacts.
Variables Service APIKeyManager : Type.
Implicit Types ctx : Context Service APIKeyManager.

(** X7.  The two guards are nested: whoever the root guard authorizes,
    the admin-or-root guard authorizes for every account; and a caller
    with the role USER is denied by both, for every account. *)
Theorem require_root_implies_admin_or_root ctx :
  (_require_root ctx = Returns None ->
   forall account_id, _require_admin_or_root ctx account_id = Returns None)
  /\ (RequestContext.role (get_request_context ctx) = USER ->
      _require_root ctx <> Returns None
      /\ forall account_id,
           _require_admin_or_root ctx account_id <> Returns None).
Proof.
  split.
  - intros H account_id.
    destruct (require_root_cases _ _ ctx) as [[R _]|[_ (t & E & _)]];
      [|rewrite E in H; discriminate].
    destruct (require_admin_or_root_cases _ _ ctx account_id)
      as [[_ E]|[A _]]; [exact E|].
    exfalso. apply A. now left.
  - intros U. split.
    + destruct (require_root_cases _ _ ctx) as [[R _]|[_ (t & E & _)]];
        [congruence | rewrite E; discriminate].
    + intros account_id.
      destruct (require_admin_or_root_cases _ _ ctx account_id)
        as [[[R|[R _]] _]|[_ (t & E & _)]];
        [congruence | congruence | rewrite E; discriminate].
Qed.

(** X8.  An ADMIN whose identity has no account, or an empty one, is the
    admin of the account named "default": the admin-or-root guard
    authorizes it for that account and for no other. *)
Theorem admin_without_account_is_admin_of_default
    (account : option string) (user_id agent_id : option string)
    (app : AppContext.t Service APIKeyManager) (account_id : string) :
  account = None \/ account = Some EmptyString ->
  let ctx :=
    mkContext
      (mkSession
         (Some (ResolvedIdentity.make ADMIN account user_id agent_id)))
      app in
  (_require_admin_or_root ctx account_id = Returns None
   <-> account_id = "default").
Proof.
  intros H ctx.
  destruct (require_admin_or_root_cases _ _ ctx account_id)
    as [[A E]|[A (t & E & _)]]; simpl in A.
  - split; [intros _|intros _; exact E].
    destruct A as [A|[_ A]]; [discriminate|].
    destruct H as [-> | ->]; simpl in A; now symmetry.
  - split; [rewrite E; discriminate|].
    intros ->. exfalso. apply A. right. split; [reflexivity|].
    destruct H as [-> | ->]; reflexivity.
Qed.

End GuardFacts.

Lemma require_root_implies_admin_or_root_witness :
  (forall account_id,
     _require_admin_or_root Demo2.root_ctx account_id = Returns None)
  /\ _require_root Demo.user_ctx <> Returns None
  /\ forall account_id,
       _require_admin_or_root Demo.user_ctx account_id <> Returns None.
Proof.
  split.
  - apply (proj1 (require_root_implies_admin_or_root unit unit
                    Demo2.root_ctx)).
    reflexivity.
  - apply (proj2 (require_root_implies_admin_or_root unit unit
                    Demo.user_ctx)).
    reflexivity.
Defined.

Lemma admin_without_account_is_admin_of_default_witness :
  _require_admin_or_root Demo2.admin_ctx "default" = Returns None.
Proof.
  apply (proj2 (admin_without_account_is_admin_of_default unit unit
                  None (Some "ann") None (AppContext.make tt (Some tt))
                  "default" (or_introl eq_refl))).
  reflexivity.
Defined.

Section ResolverFacts.
Variables world Service APIKeyManager : Type.
Variable svc : ServiceAPI world Service.
Variable km : APIKeyManagerAPI world APIKeyManager.
Implicit Types st : run_state world.

(** X9.  With a key manager the resolver makes one lookup, whatever comes
    of it: the log grows by exactly this call.  A signal that is not an
    instance of Exception (KeyboardInterrupt, SystemExit) is not
    swallowed: it leaves the resolver as it was raised. *)
Theorem resolve_identity_single_lookup (manager : APIKeyManager)
    (token : string) st :
  calls (snd (resolve_identity km (Some manager) token st))
  = calls st ++ [api_key_manager_resolve token]
  /\ (forall e w,
        km_resolve km manager token (ext st) = (Raises e, w) ->
        is_Exception e = false ->
        resolve_identity km (Some manager) token st
        = (Raises e, mkRun w (calls st ++ [api_key_manager_resolve token]))).
Proof.
  unfold resolve_identity, try_except_Exception, invoke, ret. split.
  - destruct (km_resolve km manager token (ext st)) as [[r|e] w];
      [reflexivity|].
    destruct (is_Exception e); reflexivity.
  - intros e w H He. rewrite H, He. reflexivity.
Qed.

(** X10.  Once startup has gone through, the service is closed exactly
    once, as the last call, whether what was served returned or raised.
    When the close returns, the outcome of the lifespan is the outcome of
    what was served; when the close raises, its exception is the outcome.
    Startup calls the construction and the initialisation of the service,
    then in a process with a root key the construction and the loading of
    the key manager, and nothing more in dev mode. *)
Theorem app_lifespan_closes_service {A : Type}
    (_server_config : option MCPServerConfig)
    (serve : AppContext.t Service APIKeyManager -> M world A) st
    (service : Service) (w1 w2 w4 : world)
    (api_key_manager : option APIKeyManager) :
  let key := root_api_key (effective_config _server_config) in
  let url := svc_agfs_url svc service in
  svc_new svc (ext st) = (Returns service, w1) ->
  svc_initialize svc service w1 = (Returns tt, w2) ->
  (truthy key = false /\ api_key_manager = None /\ w4 = w2)
  \/ (truthy key = true
      /\ exists manager w3,
           km_new km key url w2 = (Returns manager, w3)
           /\ km_load km manager w3 = (Returns tt, w4)
           /\ api_key_manager = Some manager) ->
  let st0 :=
    mkRun w4
      (calls st ++ [OpenVikingService_new; service_initialize]
         ++ (if truthy key
             then [APIKeyManager_new key url; api_key_manager_load]
             else [])) in
  forall r st2,
    serve (AppContext.make service api_key_manager) st0 = (r, st2) ->
    calls (snd (app_lifespan svc km _server_config serve st))
    = calls st2 ++ [service_close]
    /\ (forall w,
          svc_close svc service (ext st2) = (Returns tt, w) ->
          app_lifespan svc km _server_config serve st
          = (r, mkRun w (calls st2 ++ [service_close])))
    /\ (forall e w,
          svc_close svc service (ext st2) = (Raises e, w) ->
          app_lifespan svc km _server_config serve st
          = (Raises e, mkRun w (calls st2 ++ [service_close]))).
Proof.
  intros key url N I H st0 r st2 S.
  assert (E : app_lifespan svc km _server_config serve st
              = try_finally (serve (AppContext.make service api_key_manager))
                  (invoke service_close (svc_close svc service)) st0).
  { unfold app_lifespan. fold (effective_config _server_config).
    fold key. unfold bind at 1. unfold invoke at 1. rewrite N.
    unfold bind at 1. unfold invoke at 1. cbn [ext calls]. rewrite I.
    fold url. unfold bind at 1. subst st0.
    destruct H as [(T & -> & ->)|(T & manager & w3 & Hn & Hl & ->)];
      rewrite T.
    - unfold ret. rewrite <- !app_assoc. reflexivity.
    - unfold bind, invoke, ret. cbn [ext calls]. rewrite Hn.
      cbn [ext calls]. rewrite Hl. rewrite <- !app_assoc. reflexivity. }
  rewrite E. unfold try_finally, invoke. rewrite S. split; [|split].
  - destruct (svc_close svc service (ext st2)) as [[[]|e] w]; reflexivity.
  - intros w C. rewrite C. reflexivity.
  - intros e w C. rewrite C. reflexivity.
Qed.

(** X11.  Startup is not undone: when a root key is configured and the
    construction or the loading of the key manager raises, the lifespan
    raises that exception, nothing is served, and the service that was
    initialised is not closed: the log ends with the failed call. *)
Theorem app_lifespan_key_manager_failure {A : Type}
    (_server_config : option MCPServerConfig)
    (serve : AppContext.t Service APIKeyManager -> M world A) st
    (service : Service) (w1 w2 : world) :
  let config := effective_config _server_config in
  let key := root_api_key config in
  let url := svc_agfs_url svc service in
  truthy key = true ->
  svc_new svc (ext st) = (Returns service, w1) ->
  svc_initialize svc service w1 = (Returns tt, w2) ->
  (forall e w3,
     km_new km key url w2 = (Raises e, w3) ->
     app_lifespan svc km _server_config serve st
     = (Raises e,
        mkRun w3
          (calls st ++ [OpenVikingService_new; service_initialize;
                        APIKeyManager_new key url])))
  /\ (forall manager w3 e w4,
        km_new km key url w2 = (Returns manager, w3) ->
        km_load km manager w3 = (Raises e, w4) ->
        app_lifespan svc km _server_config serve st
        = (Raises e,
           mkRun w4
             (calls st ++ [OpenVikingService_new; service_initialize;
                           APIKeyManager_new key url;
                           api_key_manager_load]))).
Proof.
  intros config key url. subst config key url. intros T N I.
  unfold app_lifespan. fold (effective_config _server_config).
  unfold bind, invoke.
  rewrite N. cbn [ext calls]. rewrite I. cbn [ext calls]. rewrite T. split.
  - intros e w3 H. cbn [ext calls]. rewrite H. cbn [ext calls].
    rewrite <- !app_assoc. reflexivity.
  - intros manager w3 e w4 H L. cbn [ext calls]. rewrite H.
    cbn [ext calls]. rewrite L. cbn [ext calls].
    rewrite <- !app_assoc. reflexivity.
Qed.

End ResolverFacts.

Lemma resolve_identity_single_lookup_witness :
  resolve_identity Demo2.km (Some tt) "k" Demo.start
  = (Raises (BaseExceptionOnly "KeyboardInterrupt"),
     mkRun [] [api_key_manager_resolve "k"]).
Proof.
  apply (proj2 (resolve_identity_single_lookup Demo.world unit Demo2.km
                  tt "k" Demo.start)
           (BaseExceptionOnly "KeyboardInterrupt") []); reflexivity.
Defined.

Lemma app_lifespan_closes_service_witness :
  app_lifespan Demo.svc Demo.km (Some secret_config)
    (fun app => lift (Raises (OtherException "RuntimeError" "boom")))
    Demo.start
  = (Raises (OtherException "RuntimeError" "boom") : outcome unit,
     mkRun []
       [OpenVikingService_new; service_initialize;
        APIKeyManager_new (PStr "secret") (PStr "http://localhost:1833");
        api_key_manager_load; service_close]).
Proof.
  apply (proj1 (proj2
           (app_lifespan_closes_service Demo.world unit unit
              Demo.svc Demo.km (Some secret_config)
              (fun app => lift (Raises (OtherException "RuntimeError" "boom")
                                : outcome unit))
              Demo.start tt [] [] [] (Some tt) eq_refl eq_refl
              (or_intror
                 (conj eq_refl
                    (ex_intro _ tt
                       (ex_intro _ []
                          (conj eq_refl (conj eq_refl eq_refl))))))
              _ _ eq_refl)) []).
  reflexivity.
Defined.

Lemma app_lifespan_key_manager_failure_witness :
  app_lifespan Demo.svc Demo2.km (Some secret_config)
    (fun app => ret tt) Demo.start
  = (Raises (OtherException "ConnectionError" "store unreachable"),
     mkRun []
       [OpenVikingService_new; service_initialize;
        APIKeyManager_new (PStr "secret") (PStr "http://localhost:1833");
        api_key_manager_load]).
Proof.
  apply (proj2 (app_lifespan_key_manager_failure Demo.world unit unit
                  Demo.svc Demo2.km (Some secret_config)
                  (fun app => ret tt) Demo.start tt [] []
                  eq_refl eq_refl eq_refl)
           tt [] (OtherException "ConnectionError" "store unreachable") []);
    reflexivity.
Defined.


(** * Further properties: configuration and bootstrap *)

Lemma merge_sections_malformed (data : pyval) :
  config_document data = false ->
  exists msg, merge_sections data = Raises (AttributeError msg).
Proof.
  unfold merge_sections, dict_get, getattr_get.
  destruct data as [| | | | |d|]; try (intros _; eexists; reflexivity).
  simpl config_document.
  destruct (lookup "server" d) as [[| | | | |s|]|] eqn:Es; simpl;
    destruct (lookup "mcp_server" d) as [[| | | | |m|]|] eqn:Em; simpl;
    try discriminate; intros _; eexists; reflexivity.
Qed.

(** X12.  Reading a configuration file returns a configuration exactly
    when the document is a JSON object whose [server] and [mcp_server]
    members, when present, are objects; for any other document (a list, a
    section that is null or a string, ...) it raises AttributeError. *)
Theorem from_ov_conf_malformed_document (files : string -> option pyval)
    (config_path : string) (data : pyval) :
  files config_path = Some data ->
  if config_document data
  then exists config, from_ov_conf files config_path = Returns config
  else exists msg,
         from_ov_conf files config_path = Raises (AttributeError msg).
Proof.
  intros F. unfold from_ov_conf. rewrite F.
  destruct (config_document data) eqn:C.
  - exists (key_merge data). now apply merge_sections_key_merge.
  - now apply merge_sections_malformed.
Qed.

Lemma from_ov_conf_malformed_document_witness :
  exists msg,
    from_ov_conf (one_file "ov.conf" (PDict [("server", PNone)])) "ov.conf"
    = Raises (AttributeError msg).
Proof.
  apply (from_ov_conf_malformed_document
           (one_file "ov.conf" (PDict [("server", PNone)])) "ov.conf"
           (PDict [("server", PNone)]) eq_refl).
Defined.

(** What the file gives for a configuration document, or the defaults. *)
Lemma from_ov_conf_cases (files : string -> option pyval) (path : string) :
  (files path = None
   /\ from_ov_conf files path = Returns MCPServerConfig_default)
  \/ (exists data,
        files path = Some data /\ config_document data = true
        /\ from_ov_conf files path = Returns (key_merge data))
  \/ (exists data msg,
        files path = Some data /\ config_document data = false
        /\ from_ov_conf files path = Raises (AttributeError msg)).
Proof.
  unfold from_ov_conf. destruct (files path) as [data|] eqn:F.
  - destruct (config_document data) eqn:C.
    + right. left. exists data. repeat split; try assumption.
      now apply merge_sections_key_merge.
    + right. right. destruct (merge_sections_malformed data C) as [msg E].
      exists data, msg. now repeat split.
  - now left.
Qed.

Section BootstrapFacts.
Variable Server : Type.
Variable fm : FastMCPAPI Server.

(** X13.  The precedence of the command line: when the configuration is
    read, the configuration that [main] stores for [app_lifespan] has the
    host and the port of the command line where they are given (also an
    empty host or the port 0), else those of the file; its root key and
    its CORS origins are always those of the file, so the command line
    cannot switch authentication on or off.  [FastMCP] is constructed with
    the host and the port stored, and [main] has a server to run exactly
    when that constructor and the registrations of the tools return; when
    one of them raises, [main] raises the same and the configuration stays
    stored. *)
Theorem main_command_line_overrides (files : string -> option pyval)
    (args : Namespace.t) (p : process) (config : MCPServerConfig) :
  from_ov_conf files (Namespace.config args) = Returns config ->
  exists stored,
    server_config (snd (main fm files args p)) = Some stored
    /\ host stored
       = match Namespace.host args with
         | Some h => PStr h
         | None => host config
         end
    /\ port stored
       = match Namespace.port args with
         | Some n => PInt n
         | None => port config
         end
    /\ root_api_key stored = root_api_key config
    /\ cors_origins stored = cors_origins config
    /\ fst (main fm files args p)
       = (mcp <- FastMCP_new fm
                   (FastMCP.make "openviking-mcp" INSTRUCTIONS
                      (host stored) (port stored) true true) ;;
          mcp <- register_all_tools fm mcp ;;
          Returns
            (mcp,
             if String.eqb (Namespace.transport args) "streamable-http"
             then "streamable-http" else "stdio")).
Proof.
  intros F.
  exists (mkMCPServerConfig
            (match Namespace.host args with
             | Some h => PStr h
             | None => host config
             end)
            (match Namespace.port args with
             | Some n => PInt n
             | None => port config
             end)
            (root_api_key config) (cors_origins config)).
  cbn [host port root_api_key cors_origins].
  unfold main, create_mcp_server, settings. rewrite F.
  destruct config as [h0 p0 k0 c0].
  destruct (Namespace.host args) as [h|], (Namespace.port args) as [n|];
    cbn [host port root_api_key cors_origins];
    (destruct (FastMCP_new fm _) as [mcp|e]; cbn;
     [destruct (register_all_tools fm mcp) as [mcp'|e]; cbn;
      [destruct (String.eqb (Namespace.transport args) "streamable-http")|]|]);
    repeat split.
Qed.

Lemma main_setdefault (files : string -> option pyval) (args : Namespace.t)
    (p : process) :
  environ (snd (main fm files args p))
  = setdefault (environ p) CONFIG_ENV (Namespace.config args).
Proof.
  unfold main, create_mcp_server.
  destruct (from_ov_conf files (Namespace.config args)) as [c|e];
    [|reflexivity].
  destruct (FastMCP_new fm _) as [mcp|e]; cbn; [|reflexivity].
  destruct (register_all_tools fm mcp) as [mcp'|e]; cbn; [|reflexivity].
  destruct (String.eqb (Namespace.transport args) "streamable-http");
    reflexivity.
Qed.

(** X14.  [main] sets OPENVIKING_CONFIG_FILE to the path it reads only
    when the variable is not set: a value it already has is kept, also
    when it names another file than the one read.  The variable is set
    before the file is read, so it stays set when reading raises; no
    other variable changes. *)
Theorem main_environ (files : string -> option pyval) (args : Namespace.t)
    (p : process) :
  let p' := snd (main fm files args p) in
  environ p' CONFIG_ENV
  = match environ p CONFIG_ENV with
    | Some path => Some path
    | None => Some (Namespace.config args)
    end
  /\ forall key, key <> CONFIG_ENV -> environ p' key = environ p key.
Proof.
  intros p'. subst p'. rewrite main_setdefault. unfold setdefault. split.
  - destruct (environ p CONFIG_ENV) eqn:V; [exact V|].
    now rewrite String.eqb_refl.
  - intros key N. destruct (environ p CONFIG_ENV); [reflexivity|].
    apply String.eqb_neq in N. now rewrite N.
Qed.

(** X15.  Without a [--config] option the path that [main] reads is the
    one OPENVIKING_CONFIG_FILE names, or the expanded
    [~/.openviking/ov.conf] when the variable is not set, and after [main]
    the variable names the path read.  With a [--config] option the path
    read is the one given, and the variable names it only if it was not
    set or was set to that path. *)
Theorem parse_args_config_path (env : string -> option string)
    (expanduser : string -> string) (given : options) (args : Namespace.t)
    (files : string -> option pyval) (stored : option MCPServerConfig) :
  parse_args env expanduser given = Returns args ->
  let after := environ (snd (main fm files args (mkProcess env stored))) in
  match opt_config given with
  | None =>
      Namespace.config args
      = match env CONFIG_ENV with
        | Some path => path
        | None => expanduser "~/.openviking/ov.conf"
        end
      /\ after CONFIG_ENV = Some (Namespace.config args)
  | Some given_path =>
      Namespace.config args = given_path
      /\ (after CONFIG_ENV = Some given_path
          <-> env CONFIG_ENV = None \/ env CONFIG_ENV = Some given_path)
  end.
Proof.
  intros P after.
  assert (E : after CONFIG_ENV
              = match env CONFIG_ENV with
                | Some path => Some path
                | None => Some (Namespace.config args)
                end).
  { subst after. rewrite main_setdefault. unfold setdefault.
    cbn [environ]. destruct (env CONFIG_ENV) eqn:V; [exact V|].
    now rewrite String.eqb_refl. }
  unfold parse_args in P.
  destruct (String.eqb _ "streamable-http" || String.eqb _ "stdio");
    [|discriminate].
  inversion P; subst args; clear P. cbn [Namespace.config] in *.
  destruct (opt_config given) as [given_path|].
  - split; [reflexivity|]. rewrite E.
    destruct (env CONFIG_ENV) as [path|].
    + split; [intros H; right; exact H | intros [H|H]; [discriminate|exact H]].
    + split; [now left | reflexivity].
  - split; [reflexivity|]. rewrite E.
    destruct (env CONFIG_ENV); reflexivity.
Qed.

End BootstrapFacts.

Lemma main_command_line_overrides_witness :
  exists stored,
    server_config
      (snd (main Demo2.fm (one_file "ov.conf" example_document)
              (Namespace.make "ov.conf" (Some "127.0.0.1") None "stdio")
              (mkProcess (fun _ => None) None)))
    = Some stored
    /\ host stored = PStr "127.0.0.1"
    /\ port stored = PInt 9000
    /\ root_api_key stored = PNone
    /\ cors_origins stored = PList [PStr "*"]
    /\ fst (main Demo2.fm (one_file "ov.conf" example_document)
              (Namespace.make "ov.conf" (Some "127.0.0.1") None "stdio")
              (mkProcess (fun _ => None) None))
       = (mcp <- FastMCP_new Demo2.fm
                   (FastMCP.make "openviking-mcp" INSTRUCTIONS
                      (host stored) (port stored) true true) ;;
          mcp <- register_all_tools Demo2.fm mcp ;;
          Returns (mcp, "stdio")).
Proof.
  apply (main_command_line_overrides (list string) Demo2.fm
           (one_file "ov.conf" example_document)
           (Namespace.make "ov.conf" (Some "127.0.0.1") None "stdio")
           (mkProcess (fun _ => None) None)
           (mkMCPServerConfig (PStr "B") (PInt 9000) PNone
              (PList [PStr "*"]))
           eq_refl).
Defined.

Lemma main_environ_witness :
  let p := mkProcess (fun _ => None) None in
  let p' :=
    snd (main Demo2.fm (one_file "ov.conf" example_document)
           (Namespace.make "ov.conf" None None "stdio") p) in
  environ p' CONFIG_ENV = Some "ov.conf"
  /\ environ p' "HOME" = None.
Proof.
  intros p p'.
  destruct (main_environ (list string) Demo2.fm
              (one_file "ov.conf" example_document)
              (Namespace.make "ov.conf" None None "stdio") p) as [E K].
  split; [exact E|].
  apply (K "HOME"). discriminate.
Defined.

Lemma parse_args_config_path_witness :
  environ
    (snd (main Demo2.fm (fun _ => None)
            (Namespace.make "/etc/ov.conf" None None "streamable-http")
            (mkProcess
               (fun k => if String.eqb k CONFIG_ENV
                         then Some "/etc/ov.conf" else None)
               None)))
    CONFIG_ENV
  = Some "/etc/ov.conf".
Proof.
  apply (proj2 (parse_args_config_path (list string) Demo2.fm
                  (fun k => if String.eqb k CONFIG_ENV
                            then Some "/etc/ov.conf" else None)
                  (fun path => path) (mkOptions None None None None)
                  (Namespace.make "/etc/ov.conf" None None "streamable-http")
                  (fun _ => None) None eq_refl)).
Defined.

(** With this FastMCP the server of the example document has the
    thirty-eight tools; the document with a null host is read, its
    configuration is stored, and the server is refused. *)
Example main_null_host_refused :
  let run document :=
    main Demo2.fm (one_file "ov.conf" document)
      (Namespace.make "ov.conf" None None "stdio")
      (mkProcess (fun _ => None) None) in
  (exists mcp,
     fst (run example_document) = Returns (mcp, "stdio")
     /\ List.length mcp = 38)
  /\ fst (run null_host_document)
     = Raises (OtherException "ValidationError" "FastMCP settings")
  /\ server_config (snd (run null_host_document))
     = Some (mkMCPServerConfig PNone (PInt 2033) PNone (PList [PStr "*"])).
Proof.
  split; [eexists; split; reflexivity|]. split; reflexivity.
Qed.

(** * Further properties: the text of the payloads *)

Module JsonText.
Import Json.

Lemma escape_char_printable (c : ascii) :
  forallb printable (escape_char c) = true.
Proof. destruct c as [[] [] [] [] [] [] [] []]; reflexivity. Qed.

Lemma encode_basestring_printable (s : string) :
  forallb printable (encode_basestring_ascii s) = true.
Proof.
  unfold encode_basestring_ascii. cbn [forallb].
  rewrite forallb_app. cbn.
  rewrite andb_true_r. unfold lit.
  induction (list_ascii_of_string s) as [|c l IH]; [reflexivity|].
  cbn [flat_map]. now rewrite forallb_app, escape_char_printable, IH.
Qed.

Lemma print_uint_printable (d : Decimal.uint) :
  forallb printable (print_uint d) = true.
Proof. induction d; simpl; try rewrite IHd; reflexivity. Qed.

Lemma int_repr_printable (z : Z) : forallb printable (int_repr z) = true.
Proof.
  destruct z; simpl; [reflexivity | | ]; apply print_uint_printable.
Qed.

Lemma iterencode_list_cons default (x : pyval) (l : list pyval) :
  iterencode default (PList (x :: l))
  = (t <- iterencode default x ;;
     ts <- list_others (iterencode default) l ;;
     Returns ("["%char :: t ++ ts)).
Proof. reflexivity. Qed.

Lemma iterencode_dict_cons default (k : string) (x : pyval)
    (d : list (string * pyval)) :
  iterencode default (PDict ((k, x) :: d))
  = (t <- iterencode default x ;;
     ts <- dict_others (iterencode default) d ;;
     Returns ("{"%char :: encode_basestring_ascii k ++ lit ": " ++ t ++ ts)).
Proof. reflexivity. Qed.

Lemma list_others_printable default (l : list pyval) :
  Forall (fun v => forall t, iterencode default v = Returns t ->
                             forallb printable t = true) l ->
  forall ts, list_others (iterencode default) l = Returns ts ->
             forallb printable ts = true.
Proof.
  induction 1 as [|y l Hy _ IHl]; intros ts Es; cbn [list_others] in Es.
  - inversion Es. reflexivity.
  - destruct (iterencode default y) as [ty|] eqn:Ey; [|discriminate].
    destruct (list_others (iterencode default) l) as [ts'|] eqn:Es';
      [|discriminate].
    inversion Es; subst ts.
    change (forallb printable (lit ", " ++ ty ++ ts') = true).
    now rewrite !forallb_app, (Hy ty eq_refl), (IHl ts' eq_refl).
Qed.

Lemma dict_others_printable default (l : list (string * pyval)) :
  Forall (fun kv => forall t, iterencode default (snd kv) = Returns t ->
                              forallb printable t = true) l ->
  forall ts, dict_others (iterencode default) l = Returns ts ->
             forallb printable ts = true.
Proof.
  induction 1 as [|[k y] l Hy _ IHl]; intros ts Es; cbn [dict_others] in Es.
  - inversion Es. reflexivity.
  - cbn [snd] in Hy.
    destruct (iterencode default y) as [ty|] eqn:Ey; [|discriminate].
    destruct (dict_others (iterencode default) l) as [ts'|] eqn:Es';
      [|discriminate].
    inversion Es; subst ts.
    change (forallb printable
              (lit ", " ++ encode_basestring_ascii k ++ lit ": " ++ ty ++ ts')
            = true).
    now rewrite !forallb_app, encode_basestring_printable,
      (Hy ty eq_refl), (IHl ts' eq_refl).
Qed.

Lemma iterencode_printable default (v : pyval) :
  forall t, iterencode default v = Returns t -> forallb printable t = true.
Proof.
  induction v as [|b|z|s|l IH|d IH|s] using pyval_nested_ind; intros t H.
  - inversion H. reflexivity.
  - destruct b; inversion H; reflexivity.
  - inversion H. apply int_repr_printable.
  - inversion H. apply encode_basestring_printable.
  - destruct l as [|x l]; [inversion H; reflexivity|].
    inversion IH as [|? ? Hx Hl]; subst.
    rewrite iterencode_list_cons in H.
    destruct (iterencode default x) as [tx|] eqn:Ex; [|discriminate].
    destruct (list_others (iterencode default) l) as [ts|] eqn:Es;
      [|discriminate].
    inversion H; subst t; clear H.
    change (forallb printable (["["%char] ++ tx ++ ts) = true).
    now rewrite !forallb_app, (Hx tx eq_refl),
      (list_others_printable default l Hl ts Es).
  - destruct d as [|[k x] d]; [inversion H; reflexivity|].
    inversion IH as [|? ? Hx Hl]; subst. cbn [snd] in Hx.
    rewrite iterencode_dict_cons in H.
    destruct (iterencode default x) as [tx|] eqn:Ex; [|discriminate].
    destruct (dict_others (iterencode default) d) as [ts|] eqn:Es;
      [|discriminate].
    inversion H; subst t; clear H.
    change (forallb printable
              (["{"%char] ++ encode_basestring_ascii k ++ lit ": " ++ tx ++ ts)
            = true).
    now rewrite !forallb_app, encode_basestring_printable, (Hx tx eq_refl),
      (dict_others_printable default d Hl ts Es).
  - simpl in H. destruct default; [discriminate|]. inversion H.
    apply encode_basestring_printable.
Qed.

Lemma dumps_printable default (v : pyval) (text : string) :
  dumps default v = Returns text -> forallb printable (lit text) = true.
Proof.
  unfold dumps. destruct (iterencode default v) as [t|] eqn:E;
    [|discriminate].
  intros H. inversion H. unfold lit.
  rewrite list_ascii_of_string_of_list_ascii.
  now apply (iterencode_printable default v).
Qed.

End JsonText.

(** X16.  The text that [format_error] or [permission_denied] returns is
    plain ASCII: every character of it lies between the space and the
    tilde.  This is shown for codes, messages and details whose characters
    have code points below 256, the characters that the strings of this
    development hold; a character of those outside the printable ASCII
    range comes out as an escape. *)
Theorem payloads_are_printable_ascii (e : OpenVikingError)
    (msg text : string) :
  format_error e = Returns text \/ permission_denied msg = Returns text ->
  forallb printable (Json.lit text) = true.
Proof.
  intros [E|E]; exact (JsonText.dumps_printable _ _ _ E).
Qed.

Lemma payloads_are_printable_ascii_witness :
  forallb printable (Json.lit Demo2.accent_envelope) = true.
Proof.
  apply (payloads_are_printable_ascii Demo2.accent_error EmptyString
           Demo2.accent_envelope).
  left. reflexivity.
Defined.


(** * Further properties: the content, search, session and observer tools *)

Lemma invalid_argument_payload (msg : string) :
  exists text,
    invalid_argument msg = Returns text
    /\ Json.loads text = Some (invalid_argument_object msg).
Proof.
  unfold invalid_argument.
  destruct (Json.dumps Json.NoDefault (invalid_argument_object msg))
    as [text|e] eqn:E; [|discriminate E].
  exists text. split; [exact E|].
  apply (JsonFacts.loads_dumps Json.NoDefault (invalid_argument_object msg));
    [reflexivity | exact E].
Qed.

Lemma comprehension_raises {A B} (f : A -> outcome B) (l : list A) (x : A)
    (e : exn) :
  In x l -> f x = Raises e -> exists e', comprehension f l = Raises e'.
Proof.
  induction l as [|y l IH]; [contradiction|].
  intros [->|H] F; simpl.
  - rewrite F. now exists e.
  - destruct (f y) as [b|e0]; [|now exists e0].
    destruct (IH H F) as [e' ->]. now exists e'.
Qed.

Section ServiceToolFacts.
Variables world Service APIKeyManager SessionObj Part : Type.
Variable api : ToolsAPI world Service SessionObj Part.
Implicit Types ctx : Context Service APIKeyManager.
Implicit Types st : run_state (traced world SessionObj Part).

(** X17.  None of the content, search, session and observer tools ever
    raises a domain error: an OpenVikingError of the service does not
    leave the tool. *)
Theorem service_tools_absorb_domain_errors (tool : service_tool) ctx st :
  forall e st',
    call_service_tool api tool ctx st <> (Raises (OVError e), st').
Proof.
  destruct tool; simpl call_service_tool; apply handler_absorbs.
Qed.

(** X18.  [session_add_message] checks its arguments only after it has
    fetched and loaded the session: with neither content nor parts it
    returns the INVALID_ARGUMENT payload with the message "Either content
    or parts must be provided", the trace holds the two session calls, and
    no message is added. *)
Theorem session_add_message_needs_content_or_parts
    (session_id role : string) ctx st
    (session : SessionObj) (w1 w2 : world) :
  let request_ctx := get_request_context ctx in
  sessions_session api (AppContext.service (get_app ctx)) request_ctx
    session_id (fst (ext st))
  = (Returns session, w1) ->
  session_load api session w1 = (Returns tt, w2) ->
  exists text,
    session_add_message api session_id role None None ctx st
    = (Returns text,
       mkRun (w2,
              snd (ext st)
                ++ [sessions_session_call request_ctx session_id;
                    session_load_call session])
         (calls st))
    /\ Json.loads text
       = Some (invalid_argument_object
                 "Either content or parts must be provided").
Proof.
  intros request_ctx S L.
  destruct (invalid_argument_payload
              "Either content or parts must be provided") as (text & E & P).
  exists text. split; [|exact P].
  unfold session_add_message, try_except_OpenVikingError, bind, call_out,
    lift. fold request_ctx.
  rewrite S. cbn [ext calls fst snd]. rewrite L. cbn [ext calls fst snd].
  rewrite E, <- app_assoc. reflexivity.
Qed.

(** X19.  In [session_add_message] the content wins over the parts: when
    a content is given, also the empty string, the message added has the
    one text part made of it and the parts are not looked at; the count
    in the response is the number of messages after the addition. *)
Theorem session_add_message_content_wins
    (session_id role text : string) (parts : option (list pyval)) ctx st
    (session : SessionObj) (w1 w2 w3 : world) :
  let request_ctx := get_request_context ctx in
  sessions_session api (AppContext.service (get_app ctx)) request_ctx
    session_id (fst (ext st))
  = (Returns session, w1) ->
  session_load api session w1 = (Returns tt, w2) ->
  session_add_message_method api session role [TextPart api text] w2
  = (Returns tt, w3) ->
  exists response,
    session_add_message api session_id role (Some text) parts ctx st
    = (Returns response,
       mkRun (w3,
              snd (ext st)
                ++ [sessions_session_call request_ctx session_id;
                    session_load_call session;
                    session_add_message_call session role
                      [TextPart api text]])
         (calls st))
    /\ Json.loads response
       = Some (PDict [("session_id", PStr session_id);
                      ("message_count",
                        PInt (session_messages_len api session w3))]).
Proof.
  intros request_ctx S L A.
  set (o := PDict [("session_id", PStr session_id);
                   ("message_count",
                     PInt (session_messages_len api session w3))]).
  destruct (Json.dumps Json.NoDefault o) as [response|e] eqn:E;
    [|discriminate E].
  exists response. split.
  - unfold session_add_message, try_except_OpenVikingError, bind, call_out,
      lift, read_messages_len. fold request_ctx.
    rewrite S. cbn [ext calls fst snd]. rewrite L. cbn [ext calls fst snd].
    rewrite A. cbn [ext calls fst snd]. fold o. rewrite E, <- !app_assoc.
    reflexivity.
  - apply (JsonFacts.loads_dumps Json.NoDefault o); [reflexivity|exact E].
Qed.

(** X20.  The parts of a message are converted before anything is added:
    when one of them is refused by [part_from_dict], no message is added;
    the world and the trace are as the loading of the session left
    them. *)
Theorem session_add_message_bad_part
    (session_id role : string) (dicts : list pyval) (bad : pyval) (e : exn)
    ctx st (session : SessionObj) (w1 w2 : world) :
  let request_ctx := get_request_context ctx in
  sessions_session api (AppContext.service (get_app ctx)) request_ctx
    session_id (fst (ext st))
  = (Returns session, w1) ->
  session_load api session w1 = (Returns tt, w2) ->
  In bad dicts ->
  part_from_dict api bad = Raises e ->
  ext (snd (session_add_message api session_id role None (Some dicts) ctx st))
  = (w2,
     snd (ext st)
       ++ [sessions_session_call request_ctx session_id;
           session_load_call session]).
Proof.
  intros request_ctx S L I B.
  destruct (comprehension_raises (part_from_dict api) dicts bad e I B)
    as [e' C].
  unfold session_add_message, try_except_OpenVikingError, bind, call_out,
    lift. fold request_ctx.
  rewrite S. cbn [ext calls fst snd]. rewrite L. cbn [ext calls fst snd].
  rewrite C, <- app_assoc.
  destruct e' as [d| | | |]; try reflexivity;
    destruct (format_error d); reflexivity.
Qed.

(** X21.  An empty session id is no session id: [search_search] with the
    empty string does what it does without one.  It fetches and loads no
    session, and its one call is the search, made without a session. *)
Theorem search_search_empty_session_id
    (query target_uri : string) (limit : Z) (score_threshold : pyval)
    ctx st :
  search_search api query target_uri (Some EmptyString) limit
    score_threshold ctx st
  = search_search api query target_uri None limit score_threshold ctx st
  /\ snd (ext (snd (search_search api query target_uri None limit
                      score_threshold ctx st)))
     = snd (ext st)
         ++ [search_search_call query (get_request_context ctx) target_uri
               None limit score_threshold].
Proof.
  split; [reflexivity|].
  unfold search_search, try_except_OpenVikingError, bind, call_out, lift, ret.
  cbn [ext calls fst snd].
  destruct (search_search_method api _ query _ target_uri None limit
              score_threshold (fst (ext st))) as [[r|[d| | | |]] w];
    cbn [ext calls fst snd]; try reflexivity;
    try (destruct (Json.dumps Json.DefaultStr r) as [t|[d| | | |]];
         try reflexivity);
    destruct (format_error d); reflexivity.
Qed.

(** X22.  [observer_status] refuses a component name that is not one of
    queue, vikingdb, vlm and transaction, compared as written: it returns
    the INVALID_ARGUMENT payload whose message names the component, and
    reads nothing from the observer. *)
Theorem observer_status_unknown_component (name : string) ctx st :
  ~ In name observer_components ->
  exists text,
    observer_status api (Some name) ctx st = (Returns text, st)
    /\ Json.loads text
       = Some (invalid_argument_object
                 (String.append "Unknown component: "
                    (String.append name
                       ". Valid: queue, vikingdb, vlm, transaction"))).
Proof.
  intros N.
  destruct (invalid_argument_payload
              (String.append "Unknown component: "
                 (String.append name
                    ". Valid: queue, vikingdb, vlm, transaction")))
    as (text & E & P).
  exists text. split; [|exact P].
  unfold observer_status, try_except_OpenVikingError, lift.
  assert (F : forall k, In k observer_components -> String.eqb name k = false).
  { intros k H. apply String.eqb_neq. intros ->. exact (N H). }
  rewrite !F by (simpl; tauto). rewrite E. reflexivity.
Qed.

(** X23.  [content_read] hands a string result over as it is, not encoded
    as JSON; a result of any other type comes back as a JSON text that
    parses back to it. *)
Theorem content_read_passes_strings (uri : string) (offset limit : Z) ctx st
    (result : pyval) (w : world) :
  let request_ctx := get_request_context ctx in
  fs_read api (AppContext.service (get_app ctx)) uri request_ctx offset limit
    (fst (ext st))
  = (Returns result, w) ->
  keys_unique result = true ->
  exists text,
    content_read api uri offset limit ctx st
    = (Returns text,
       mkRun (w, snd (ext st) ++ [fs_read_call uri request_ctx offset limit])
         (calls st))
    /\ match result with
       | PStr s => text = s
       | _ => Json.loads text = Some (rendered result)
       end.
Proof.
  intros request_ctx R K.
  assert (D : exists t, Json.dumps Json.DefaultStr result = Returns t).
  { unfold Json.dumps.
    destruct (JsonFacts.iterencode_total result) as [t ->].
    eexists; reflexivity. }
  destruct D as [t D].
  exists (match result with PStr s => s | _ => t end). split.
  - unfold content_read, try_except_OpenVikingError, bind, call_out, lift.
    fold request_ctx. rewrite R. cbn [ext calls fst snd].
    unfold str_or_dumps. destruct result; try rewrite D; reflexivity.
  - destruct result; try reflexivity;
      apply (JsonFacts.loads_dumps Json.DefaultStr _ t K D).
Qed.

End ServiceToolFacts.

Lemma service_tools_absorb_domain_errors_witness :
  call_service_tool Demo2.api (Observer_status (Some "queue")) Demo2.root_ctx
    Demo2.start
  <> (Raises (OVError Demo2.conflict), Demo2.start).
Proof.
  apply (service_tools_absorb_domain_errors nat unit unit unit string
           Demo2.api (Observer_status (Some "queue")) Demo2.root_ctx Demo2.start
           Demo2.conflict Demo2.start).
Defined.

Lemma session_add_message_needs_content_or_parts_witness :
  exists text,
    session_add_message Demo2.api "s1" "user" None None
      Demo2.anonymous_ctx Demo2.start
    = (Returns text,
       mkRun (0,
              [sessions_session_call
                 (get_request_context Demo2.anonymous_ctx) "s1";
               session_load_call tt])
         [])
    /\ Json.loads text
       = Some (invalid_argument_object
                 "Either content or parts must be provided").
Proof.
  apply (session_add_message_needs_content_or_parts nat unit unit unit
           string Demo2.api "s1" "user" Demo2.anonymous_ctx Demo2.start
           tt 0 0); reflexivity.
Defined.

Lemma session_add_message_content_wins_witness :
  exists response,
    session_add_message Demo2.api "s1" "user" (Some "hello")
      (Some [PInt 7]) Demo2.anonymous_ctx Demo2.start
    = (Returns response,
       mkRun (1,
              [sessions_session_call
                 (get_request_context Demo2.anonymous_ctx) "s1";
               session_load_call tt;
               session_add_message_call tt "user" ["hello"]])
         [])
    /\ Json.loads response
       = Some (PDict [("session_id", PStr "s1");
                      ("message_count", PInt 1)]).
Proof.
  apply (session_add_message_content_wins nat unit unit unit
           string Demo2.api "s1" "user" "hello" (Some [PInt 7])
           Demo2.anonymous_ctx Demo2.start tt 0 0 1); reflexivity.
Defined.

Lemma session_add_message_bad_part_witness :
  ext (snd (session_add_message Demo2.api "s1" "user" None
              (Some [PDict [("type", PStr "text"); ("text", PStr "a")];
                     PInt 7])
              Demo2.anonymous_ctx Demo2.start))
  = (0,
     [sessions_session_call (get_request_context Demo2.anonymous_ctx) "s1";
      session_load_call tt]).
Proof.
  apply (session_add_message_bad_part nat unit unit unit
           string Demo2.api "s1" "user"
           [PDict [("type", PStr "text"); ("text", PStr "a")]; PInt 7]
           (PInt 7) (OtherException "ValueError" "Unknown part type")
           Demo2.anonymous_ctx Demo2.start tt 0 0);
    try reflexivity.
  right. left. reflexivity.
Defined.

Lemma observer_status_unknown_component_witness :
  exists text,
    observer_status Demo2.api (Some "Queue") Demo2.anonymous_ctx Demo2.start
    = (Returns text, Demo2.start)
    /\ Json.loads text
       = Some (invalid_argument_object
                 "Unknown component: Queue. Valid: queue, vikingdb, vlm, transaction").
Proof.
  apply (observer_status_unknown_component nat unit unit unit
           string Demo2.api "Queue" Demo2.anonymous_ctx Demo2.start).
  simpl. intros [H|[H|[H|[H|[]]]]]; discriminate H.
Defined.

Lemma content_read_passes_strings_witness :
  exists text,
    content_read Demo2.api "viking://a" 0 (-1)
      Demo2.anonymous_ctx Demo2.start
    = (Returns text,
       mkRun (0,
              [fs_read_call "viking://a"
                 (get_request_context Demo2.anonymous_ctx) 0 (-1)])
         [])
    /\ text = "viking://a".
Proof.
  apply (content_read_passes_strings nat unit unit unit
           string Demo2.api "viking://a" 0 (-1)
           Demo2.anonymous_ctx Demo2.start (PStr "viking://a") 0);
    reflexivity.
Defined.
